(** * The GitHub "Create Issue Comment" component

    A shallow embedding of [pkg/integrations/github/create_issue_comment.go]
    and of the library calls it makes ([strconv.Atoi], [mapstructure.Decode],
    [strings.EqualFold]), followed by the properties of its [Setup],
    [Execute], [Configuration] and [OutputChannels] operations.  What the
    component calls but these sources do not define is either a parameter
    of the section [Component] or a definition marked as modelled from the
    spec.

    Go strings are byte strings: they are [string] here, one [ascii] per
    byte.  Go's [int] and [int64] are [Z] with the 64-bit range written
    out where the code depends on it.  A Go function returning
    [(T, error)] returns [result T]; one returning only [error] returns
    [result unit]. *)

From stdpp Require Import gmap strings list fin_maps.
From Stdlib Require Import ZArith Ascii String.

Set Warnings "-register-all".
Local Open Scope Z_scope.

(** ** Dynamic values

    [ctx.Configuration] has type [any]; the host hands over a
    [map[string]any] whose entries are strings, nil, or something else
    (numbers, booleans, slices). *)

Inductive any : Type :=
| ANil
| AString (s : string)
| AMap (m : gmap string any)
| AOther (kind : string).

(** ** Errors

    [errorString] is what [errors.New] and a [fmt.Errorf] without [%w]
    build; [wrapError] is [fmt.Errorf("<msg>: %w", err)]; [libraryError]
    is an error value built inside strconv or mapstructure. *)

Inductive strconv_reason := ErrSyntax | ErrRange.

Inductive library_error :=
| NumError (Func Num : string) (Err : strconv_reason)
| mapstructure_Error (fields : list string)
| mapstructure_expected_map (kind : string).

Inductive error :=
| errorString (s : string)
| wrapError (msg : string) (err : error)
| libraryError (e : library_error).

Inductive result (A : Type) :=
| Ok (a : A)
| Err (e : error).
Arguments Ok {A} a.
Arguments Err {A} e.

Definition errors_New (text : string) : error := errorString text.

(** [if err != nil { return fmt.Errorf("<msg>: %w", err) }] *)
Definition wrapf {A} (msg : string) (r : result A) : result A :=
  match r with
  | Ok a => Ok a
  | Err e => Err (wrapError msg e)
  end.

#[global] Instance result_ret : MRet result := @Ok.
#[global] Instance result_bind : MBind result := λ A B f r,
  match r with
  | Ok a => f a
  | Err e => Err e
  end.

(** ** Substrings ([strings.Contains], as [require.ErrorContains] uses it) *)

Definition Contains (s sub : string) : Prop :=
  ∃ pre post : string, s = pre +:+ sub +:+ post.

Fixpoint strings_Contains (s sub : string) : bool :=
  String.prefix sub s ||
  match s with
  | EmptyString => false
  | String _ s' => strings_Contains s' sub
  end.

(** ** strconv.Atoi

    The fast path handles strings of 1 to 18 bytes; everything else goes
    through [ParseInt(s, 10, 0)], whose digit loop is [ParseUint]'s. *)

Definition byte_of (c : ascii) : Z := Z.of_N (N_of_ascii c).

Definition is_digit (c : ascii) : bool :=
  (48 <=? byte_of c) && (byte_of c <=? 57).

Definition is_sign (c : ascii) : bool :=
  bool_decide (c = "-"%char) || bool_decide (c = "+"%char).

Definition syntaxError {A} (fn str : string) : result A :=
  Err (libraryError (NumError fn str ErrSyntax)).

Definition rangeError {A} (fn str : string) : result A :=
  Err (libraryError (NumError fn str ErrRange)).

(** The fast path's loop: [ch -= '0'; if ch > 9 { syntax error };
    n = n*10 + int(ch)]. *)
Fixpoint atoi_digits (s0 s : string) (n : Z) : result Z :=
  match s with
  | EmptyString => Ok n
  | String ch s' =>
      if is_digit ch then atoi_digits s0 s' (n * 10 + (byte_of ch - 48))
      else syntaxError "Atoi" s0
  end.

Definition maxUint64 : Z := 2 ^ 64 - 1.
Definition cutoff10 : Z := maxUint64 / 10 + 1.

(** [ParseUint(s, 10, 64)]'s loop over a non-empty [s]; [None] stands for
    a syntax error, [Some None] for a range error. *)
Fixpoint parseUint_digits (s : string) (n : Z) : option (option Z) :=
  match s with
  | EmptyString => Some (Some n)
  | String c s' =>
      if is_digit c then
        if cutoff10 <=? n then Some None
        else
          let n1 := n * 10 + (byte_of c - 48) in
          if maxUint64 <? n1 then Some None
          else parseUint_digits s' n1
      else None
  end.

Definition ParseInt10 (fn s0 : string) : result Z :=
  match s0 with
  | EmptyString => syntaxError fn s0
  | String c rest =>
      let neg := bool_decide (c = "-"%char) in
      let s := if is_sign c then rest else s0 in
      match s with
      | EmptyString => syntaxError fn s0
      | _ =>
          match parseUint_digits s 0 with
          | None => syntaxError fn s0
          | Some None => rangeError fn s0
          | Some (Some un) =>
              if negb neg && (2 ^ 63 <=? un) then rangeError fn s0
              else if neg && (2 ^ 63 <? un) then rangeError fn s0
              else Ok (if neg then - un else un)
          end
      end
  end.

Definition Atoi (s : string) : result Z :=
  let sLen := String.length s in
  if bool_decide (0 < sLen < 19)%nat then
    match s with
    | EmptyString => syntaxError "Atoi" s
    | String c rest =>
        let s1 := if is_sign c then rest else s in
        match s1 with
        | EmptyString => syntaxError "Atoi" s
        | _ =>
            n ← atoi_digits s s1 0;
            Ok (if bool_decide (c = "-"%char) then - n else n)
        end
    end
  else ParseInt10 "Atoi" s.

(** A decimal integer string: an optional sign and at least one digit. *)
Fixpoint all_digits (s : string) : bool :=
  match s with
  | EmptyString => true
  | String c s' => is_digit c && all_digits s'
  end.

Definition is_decimal_integer (s : string) : bool :=
  match s with
  | EmptyString => false
  | String c rest =>
      let s1 := if is_sign c then rest else s in
      match s1 with
      | EmptyString => false
      | _ => all_digits s1
      end
  end.

(** ** strings.EqualFold against an ASCII name

    mapstructure matches a map key to a field name with its [MatchName],
    which [Decode] leaves at [strings.EqualFold].  The second argument is
    always one of the ASCII tag names below, so the Unicode simple
    folding reduces to: a letter matches itself in either case, [s] also
    matches U+017F and [k] also matches U+212A (in UTF-8), and every
    other byte matches only itself. *)

Definition lower (c : ascii) : ascii :=
  if (65 <=? byte_of c) && (byte_of c <=? 90)
  then ascii_of_N (N_of_ascii c + 32) else c.

Definition fold_eq_byte (b c : ascii) : bool :=
  bool_decide (b = c) ||
  ((97 <=? byte_of (lower c)) && (byte_of (lower c) <=? 122)
   && bool_decide (lower b = lower c)).

Definition long_s : string := String (ascii_of_N 197) (String (ascii_of_N 191) EmptyString).
Definition kelvin : string :=
  String (ascii_of_N 226) (String (ascii_of_N 132) (String (ascii_of_N 170) EmptyString)).

(** [strip p s] is [Some rest] when [s = p ++ rest]. *)
Fixpoint strip (p s : string) : option string :=
  match p, s with
  | EmptyString, _ => Some s
  | String a p', String b s' => if bool_decide (a = b) then strip p' s' else None
  | String _ _, EmptyString => None
  end.

Fixpoint EqualFold (s t : string) : bool :=
  match t with
  | EmptyString => bool_decide (s = EmptyString)
  | String c t' =>
      match s with
      | EmptyString => false
      | String b s' =>
          if fold_eq_byte b c then EqualFold s' t'
          else if bool_decide (lower c = "s"%char) then
            match strip long_s s with
            | Some rest => EqualFold rest t'
            | None => false
            end
          else if bool_decide (lower c = "k"%char) then
            match strip kelvin s with
            | Some rest => EqualFold rest t'
            | None => false
            end
          else false
      end
  end.

(** ** The package's structures

    Each Go struct is a module holding a record [t], so that fields keep
    their Go names ([Repository.Name], [NodeMetadata.Repository], ...). *)

Module CreateIssueCommentConfiguration.
Record t := {
  Repository : string;   (* mapstructure:"repository" *)
  IssueNumber : string;  (* mapstructure:"issueNumber" *)
  Body : string;         (* mapstructure:"body" *)
}.
End CreateIssueCommentConfiguration.

(** [Repository], declared elsewhere in the package: a repository the app
    installation can reach, with the fields the tests give it. *)
Module Repository.
Record t := { ID : Z; Name : string; URL : string }.
End Repository.

(** [NodeMetadata], declared elsewhere in the package: what [Setup] keeps
    for the node, a pointer to the resolved repository (the tests compare
    it with [NodeMetadata{Repository: &helloRepo}]). *)
Module NodeMetadata.
Record t := { Repository : option Repository.t }.
End NodeMetadata.

Module GitHubAppMetadata.
Record t := { ID : Z }.
End GitHubAppMetadata.

(** [Metadata], declared elsewhere in the package: the integration's
    metadata, with the fields [Execute] reads and the tests set. *)
Module Metadata.
Record t := {
  InstallationID : string;
  Owner : string;
  GitHubApp : GitHubAppMetadata.t;
  Repositories : list Repository.t;
}.
Definition zero : t :=
  {| InstallationID := ""; Owner := "";
     GitHubApp := {| GitHubAppMetadata.ID := 0 |}; Repositories := [] |}.
End Metadata.

(** [core.IntegrationContext]: [GetMetadata()] returns an [any] that is
    nil, a [Metadata] value, or something mapstructure cannot decode into
    [Metadata] (then [undecodable] carries mapstructure's error). *)
Inductive integration_metadata :=
| metadata_nil
| metadata_value (m : Metadata.t)
| undecodable (e : library_error).

Module IntegrationContext.
Record t := { GetMetadata : integration_metadata }.
End IntegrationContext.

(** [mapstructure.Decode(ctx.Integration.GetMetadata(), &appMetadata)] *)
Definition DecodeMetadata (input : integration_metadata) : result Metadata.t :=
  match input with
  | metadata_nil => Ok Metadata.zero
  | metadata_value m => Ok m
  | undecodable e => Err (libraryError e)
  end.

(** [core.SetupContext].  Its [Metadata] field is a handle on the node's
    metadata store; the store's content is the state [Setup] runs in. *)
Module SetupContext.
Record t := {
  Integration : IntegrationContext.t;
  Configuration : any;
}.
End SetupContext.

(** [core.ExecutionContext].  [ExecutionState.Emit] records the call and
    returns what the host's implementation returns for it. *)
Module ExecutionStateContext.
Record t (IssueComment : Type) := {
  Emit : string → string → list IssueComment → option error;
}.
Arguments Emit {IssueComment} _ _ _ _.
End ExecutionStateContext.

Module ExecutionContext.
Record t (IssueComment : Type) := {
  Integration : IntegrationContext.t;
  Configuration : any;
  ExecutionState : ExecutionStateContext.t IssueComment;
}.
Arguments Integration {IssueComment} _.
Arguments Configuration {IssueComment} _.
Arguments ExecutionState {IssueComment} _.
End ExecutionContext.

Module configuration.
Inductive FieldType :=
| FieldTypeString
| FieldTypeText
| FieldTypeIntegrationResource.

(* [Type] is reserved: the Go fields named Type are [ResourceType] and
   [Type_] here, and the Go field TypeOptions is [TypeOptions_]. *)
Record ResourceTypeOptions := { ResourceType : string; UseNameAsValue : bool }.
Record TypeOptions := { Resource : option ResourceTypeOptions }.

Record Field := {
  Name : string;
  Label : string;
  Type_ : FieldType;
  Description : string;
  Placeholder : string;
  Required : bool;
  TypeOptions_ : option TypeOptions;
}.
End configuration.

Module core.
Record OutputChannel := { Name : string; Label : string }.
End core.

(** ** mapstructure.Decode into [CreateIssueCommentConfiguration] *)

(** The order in which one call's [range] loops meet the keys of a Go map
    is not fixed.  A [range_order] says, for each field name, which of
    the keys that fold to it the loop meets first. *)
Definition range_order := string → nat.

(** The map entry mapstructure reads for [fieldName]: the entry under that
    exact key if there is one, else the first key in range order that
    [EqualFold]s to it. *)
Definition rawMapVal (ρ : range_order) (m : gmap string any) (fieldName : string)
  : option any :=
  match m !! fieldName with
  | Some v => Some v
  | None =>
      let matching :=
        map_to_list (filter (λ kv, EqualFold kv.1 fieldName = true) m) in
      snd <$> matching !! (ρ fieldName `mod` List.length matching)%nat
  end.

(** Decoding one entry into a [string] field, weak typing off: a string
    is copied, nil leaves the field at its zero value, anything else is
    an error ([inr tt]). *)
Definition decodeString (v : option any) : string + unit :=
  match v with
  | None | Some ANil => inl EmptyString
  | Some (AString s) => inl s
  | Some (AMap _) | Some (AOther _) => inr tt
  end.

Definition field_errors (fs : list (string * (string + unit))) : list string :=
  omap (λ f, match f.2 with inr _ => Some f.1 | inl _ => None end) fs.

Definition from_inl (x : string + unit) : string :=
  match x with inl s => s | inr _ => EmptyString end.

Definition Decode (ρ : range_order) (input : any)
  : result CreateIssueCommentConfiguration.t :=
  match input with
  | ANil =>
      Ok {| CreateIssueCommentConfiguration.Repository := "";
            CreateIssueCommentConfiguration.IssueNumber := "";
            CreateIssueCommentConfiguration.Body := "" |}
  | AMap m =>
      let r := decodeString (rawMapVal ρ m "repository") in
      let i := decodeString (rawMapVal ρ m "issueNumber") in
      let b := decodeString (rawMapVal ρ m "body") in
      match field_errors [("repository", r); ("issueNumber", i); ("body", b)] with
      | [] =>
          Ok {| CreateIssueCommentConfiguration.Repository := from_inl r;
                CreateIssueCommentConfiguration.IssueNumber := from_inl i;
                CreateIssueCommentConfiguration.Body := from_inl b |}
      | errs => Err (libraryError (mapstructure_Error errs))
      end
  | AString _ => Err (libraryError (mapstructure_expected_map "string"))
  | AOther kind => Err (libraryError (mapstructure_expected_map kind))
  end.

(** ** Calls that read or change a store

    [M S A] is a Go call that runs against a store [S] and returns
    [(A, error)]. *)

Definition M (S A : Type) : Type := S → result A * S.

#[global] Instance M_ret {S} : MRet (M S) := λ A a s, (Ok a, s).
#[global] Instance M_bind {S} : MBind (M S) := λ A B f m s,
  match m s with
  | (Ok a, s') => f a s'
  | (Err e, s') => (Err e, s')
  end.

Definition fail {S A} (e : error) : M S A := λ s, (Err e, s).
Definition lift {S A} (r : result A) : M S A := λ s, (r, s).

(** [x, err := call; if err != nil { return fmt.Errorf("<msg>: %w", err) }] *)
Definition wrapM {S A} (msg : string) (m : M S A) : M S A :=
  λ s, let '(r, s') := m s in (wrapf msg r, s').

(** The [error] a call returns, Go's nil being [None]. *)
Definition returned {A} (r : result A) : option error :=
  match r with Ok _ => None | Err e => Some e end.

(** Modelled from the spec: the node's metadata store
    ([core.MetadataContext], implemented outside these sources), which
    the spec describes as a single opaque value per node instance,
    overwritten wholesale by [Set]. *)
Definition MetadataContext := option NodeMetadata.t.

(** Modelled from the spec: [Set] on that store replaces the value, whole,
    and returns no error. *)
Definition MetadataContext_Set (v : NodeMetadata.t) : M MetadataContext unit :=
  λ _, (Ok tt, Some v).

(** ** The component: descriptor operations *)

Definition Configuration : list configuration.Field :=
  [ {| configuration.Name := "repository";
       configuration.Label := "Repository";
       configuration.Type_ := configuration.FieldTypeIntegrationResource;
       configuration.Description := "";
       configuration.Placeholder := "";
       configuration.Required := true;
       configuration.TypeOptions_ :=
         Some {| configuration.Resource :=
                   Some {| configuration.ResourceType := "repository";
                           configuration.UseNameAsValue := true |} |} |};
    {| configuration.Name := "issueNumber";
       configuration.Label := "Issue Number";
       configuration.Type_ := configuration.FieldTypeString;
       configuration.Description := "The issue or PR number to comment on";
       configuration.Placeholder := "e.g., 42";
       configuration.Required := true;
       configuration.TypeOptions_ := None |};
    {| configuration.Name := "body";
       configuration.Label := "Body";
       configuration.Type_ := configuration.FieldTypeText;
       configuration.Description := "The comment text - supports Markdown formatting";
       configuration.Placeholder := "Enter your comment (Markdown supported)";
       configuration.Required := true;
       configuration.TypeOptions_ := None |} ].

(** ** Setup *)

(** Modelled from the spec: how [ensureRepoInMetadata] reads the
    repository reference.  The reference is resolved before the map is
    decoded into the typed structure, so it is read from the raw map under
    the field's own key; an absent key and an empty string are both "not
    provided", and so is an entry that is not a string. *)
Definition repositoryValue (configuration : any) : string :=
  match configuration with
  | AMap m =>
      match m !! "repository" with
      | Some (AString repository) => repository
      | _ => ""
      end
  | _ => ""
  end.

(** Modelled from the spec: [ensureRepoInMetadata], which is defined in
    the github package outside these sources.  It reports an empty
    reference as "repository is required", looks the name up among the
    repositories of the integration's metadata, reports "repository <name>
    is not accessible to app installation" when there is no match, and
    otherwise stores the resolved repository, whole, as the node's
    metadata.  The lookup is the one the spec records as observed
    behaviour: it returns the first match. *)
Definition ensureRepoInMetadata (integration : IntegrationContext.t)
    (configuration : any) : M MetadataContext unit :=
  let repository := repositoryValue configuration in
  if bool_decide (repository = "") then
    fail (errors_New "repository is required")
  else
    appMetadata ← wrapM "failed to decode application metadata"
      (lift (DecodeMetadata integration.(IntegrationContext.GetMetadata)));
    match List.find (λ r, bool_decide (r.(Repository.Name) = repository))
            appMetadata.(Metadata.Repositories) with
    | None =>
        fail (errorString
          ("repository " +:+ repository +:+ " is not accessible to app installation"))
    | Some r =>
        MetadataContext_Set {| NodeMetadata.Repository := Some r |}
    end.

Definition Setup (ρ : range_order) (ctx : SetupContext.t) : M MetadataContext unit :=
  (* First validate repository access *)
  ensureRepoInMetadata ctx.(SetupContext.Integration) ctx.(SetupContext.Configuration);;
  (* Then validate other required fields *)
  config ← wrapM "failed to decode configuration"
    (lift (Decode ρ ctx.(SetupContext.Configuration)));
  if bool_decide (config.(CreateIssueCommentConfiguration.IssueNumber) = "") then
    fail (errors_New "issue number is required")
  else if bool_decide (config.(CreateIssueCommentConfiguration.Body) = "") then
    fail (errors_New "body is required")
  else mret tt.

(** [Setup] after [ensureRepoInMetadata] has returned. *)
Definition Setup_checks (ρ : range_order) (configuration : any)
    (s : MetadataContext) : result unit * MetadataContext :=
  match Decode ρ configuration with
  | Err e => (Err (wrapError "failed to decode configuration" e), s)
  | Ok config =>
      if bool_decide (config.(CreateIssueCommentConfiguration.IssueNumber) = "")
      then (Err (errors_New "issue number is required"), s)
      else if bool_decide (config.(CreateIssueCommentConfiguration.Body) = "")
      then (Err (errors_New "body is required"), s)
      else (Ok tt, s)
  end.

(** ** Predicates the statements use *)

Definition named (repository : string) (r : Repository.t) : bool :=
  bool_decide (r.(Repository.Name) = repository).


Definition required_keys : list string := ["repository"; "issueNumber"; "body"].

Definition required_message (key : string) : string :=
  if bool_decide (key = "repository") then "repository is required"
  else if bool_decide (key = "issueNumber") then "issue number is required"
  else "body is required".

(** No key of the map folds to [name]. *)
Definition no_key_folds_to (m : gmap string any) (name : string) : Prop :=
  ∀ k, is_Some (m !! k) → EqualFold k name = false.

(** ** What a decimal integer string denotes *)

Fixpoint digits_value (s : string) (acc : Z) : Z :=
  match s with
  | EmptyString => acc
  | String c s' => digits_value s' (acc * 10 + (byte_of c - 48))
  end.

(** The string after its sign, if it has one. *)
Definition unsigned_part (s : string) : string :=
  match s with
  | EmptyString => EmptyString
  | String c rest => if is_sign c then rest else s
  end.

Definition is_negative (s : string) : bool :=
  match s with
  | EmptyString => false
  | String c _ => bool_decide (c = "-"%char)
  end.

Definition decimal_value (s : string) : Z :=
  let v := digits_value (unsigned_part s) 0 in
  if is_negative s then - v else v.

(** The range of Go's [int] on a 64-bit platform. *)
Definition in_int_range (n : Z) : bool := (- 2 ^ 63 <=? n) && (n <? 2 ^ 63).

(** ** Maps whose decoding does not depend on the range order *)

(** At most one key of the map can be read for [name]: the exact key is
    there, or no two keys fold to it. *)
Definition settled (m : gmap string any) (name : string) : Prop :=
  is_Some (m !! name) ∨
  ∀ k1 k2, is_Some (m !! k1) → is_Some (m !! k2) →
           EqualFold k1 name = true → EqualFold k2 name = true → k1 = k2.

Definition order_free (configuration : any) : Prop :=
  match configuration with
  | AMap m => ∀ name, name ∈ required_keys → settled m name
  | _ => True
  end.

(** The entries a [string] field can be decoded from: nil and strings. *)
Definition is_text (v : any) : bool :=
  match v with
  | ANil | AString _ => true
  | AMap _ | AOther _ => false
  end.

(** ** The component: the operations that do nothing *)

Definition Name : string := "github.createIssueComment".
Definition Label : string := "Create Issue Comment".
Definition Description : string := "Add a comment to a GitHub issue or pull request".
Definition Icon : string := "github".
Definition Color : string := "gray".

(** [HandleWebhook] answers a status code and an error. *)
Definition HandleWebhook (ctx : unit) : Z * option error := (200, None).

(** [Actions] returns an empty slice; an action is known by its name. *)
Definition Actions : list string := [].

Definition HandleAction (ctx : unit) : option error := None.

(** [Cancel] and [Cleanup] return nil and touch neither the outside
    world nor the metadata store. *)
Definition Cancel {IssueComment} (ctx : ExecutionContext.t IssueComment)
  : option error := None.

Definition Cleanup (ctx : SetupContext.t) : option error := None.

(** ** A sample installation, to run the statements on *)

Definition helloRepo : Repository.t :=
  {| Repository.ID := 123456; Repository.Name := "hello";
     Repository.URL := "https://github.com/testhq/hello" |}.

Definition helloIntegration : IntegrationContext.t :=
  {| IntegrationContext.GetMetadata :=
       metadata_value
         {| Metadata.InstallationID := ""; Metadata.Owner := "";
            Metadata.GitHubApp := {| GitHubAppMetadata.ID := 0 |};
            Metadata.Repositories := [helloRepo] |} |}.

Definition config_of (repository issueNumber body : string) : any :=
  AMap (<["repository" := AString repository]>
          (<["issueNumber" := AString issueNumber]>
             (<["body" := AString body]> ∅))).

Definition sampleChannel : core.OutputChannel :=
  {| core.Name := "default"; core.Label := "Default" |}.

Definition sampleNewClient : IntegrationContext.t → Z → string → result unit :=
  λ _ _ _, Ok tt.

(** GitHub creates the comment; the created comment is stood for by its body. *)
Definition sampleCreateComment : unit → string → string → Z → string → result string :=
  λ _ _ _ _ body, Ok body.

Definition failingCreateComment : unit → string → string → Z → string → result string :=
  λ _ _ _ _ _, Err (errorString "502 Bad Gateway").

Definition noText : library_error → string := λ _, "".

(** Every [range] loop meets first the matching key that [map_to_list]
    lists first. *)
Definition first_key : range_order := λ _, 0%nat.

Definition testhqIntegration : IntegrationContext.t :=
  {| IntegrationContext.GetMetadata :=
       metadata_value
         {| Metadata.InstallationID := "1001"; Metadata.Owner := "testhq";
            Metadata.GitHubApp := {| GitHubAppMetadata.ID := 7 |};
            Metadata.Repositories := [helloRepo] |} |}.

Definition sampleExecution (issueNumber : string) : ExecutionContext.t string :=
  {| ExecutionContext.Integration := testhqIntegration;
     ExecutionContext.Configuration := config_of "hello" issueNumber "Test comment";
     ExecutionContext.ExecutionState :=
       {| ExecutionStateContext.Emit := λ _ _ _, None |} |}.

Definition sampleSetup (repository issueNumber body : string) : SetupContext.t :=
  {| SetupContext.Integration := helloIntegration;
     SetupContext.Configuration := config_of repository issueNumber body |}.

(** Another repository of the same name. *)
Definition helloFork : Repository.t :=
  {| Repository.ID := 654321; Repository.Name := "hello";
     Repository.URL := "https://github.com/testhq/hello-fork" |}.

(** A map without the key issueNumber, and one that spells it in capitals. *)
Definition withoutIssueNumber : gmap string any :=
  <["repository" := AString "hello"]> (<["body" := AString "x"]> ∅).

Definition shoutedIssueNumber : gmap string any :=
  <["repository" := AString "hello"]>
    (<["ISSUENUMBER" := AString "42"]> (<["body" := AString "x"]> ∅)).

(** A map in which two keys compete for the field issueNumber. *)
Definition rivalIssueNumbers : gmap string any :=
  <["repository" := AString "hello"]>
    (<["ISSUENUMBER" := AString "1"]>
       (<["IssueNumber" := AString "2"]> (<["body" := AString "x"]> ∅))).


(** A host whose [Emit] fails. *)
Definition refusedEmit : ExecutionContext.t string :=
  {| ExecutionContext.Integration := testhqIntegration;
     ExecutionContext.Configuration := config_of "hello" "42" "Test comment";
     ExecutionContext.ExecutionState :=
       {| ExecutionStateContext.Emit := λ _ _ _, Some (errorString "queue is full") |} |}.

(** ** Execute, and what the descriptor needs from the host *)

Section Component.

Context {Client IssueComment : Type}.

(** [core.DefaultOutputChannel], declared in the core package. *)
Variable DefaultOutputChannel : core.OutputChannel.

(** [NewClient], defined in the github package outside these sources:
    it builds an API client for the installation, or fails. *)
Variable NewClient : IntegrationContext.t → Z → string → result Client.

(** What GitHub answers to [client.Issues.CreateComment(ctx, owner,
    repo, number, &github.IssueComment{Body: &body})]. *)
Variable CreateComment : Client → string → string → Z → string → result IssueComment.

(** The text of an error built inside strconv or mapstructure. *)
Variable libraryText : library_error → string.

Fixpoint Error (e : error) : string :=
  match e with
  | errorString s => s
  | wrapError msg err => msg +:+ ": " +:+ Error err
  | libraryError l => libraryText l
  end.

Definition OutputChannels (configuration : any) : list core.OutputChannel :=
  [DefaultOutputChannel].

(** The calls [Execute] makes on the outside world, in order. *)
Inductive Call :=
| Issues_CreateComment_call (owner repo : string) (number : Z) (body : string)
| Emit_call (channel eventType : string) (payloads : list IssueComment).

Definition is_external (c : Call) : bool :=
  match c with Issues_CreateComment_call _ _ _ _ => true | Emit_call _ _ _ => false end.

Definition is_emit (c : Call) : bool :=
  match c with Emit_call _ _ _ => true | Issues_CreateComment_call _ _ _ _ => false end.

Definition Issues_CreateComment (client : Client) (owner repo : string)
    (number : Z) (body : string) : M (list Call) IssueComment :=
  λ calls, (CreateComment client owner repo number body,
            calls ++ [Issues_CreateComment_call owner repo number body]).

Definition ExecutionState_Emit (st : ExecutionStateContext.t IssueComment)
    (channel eventType : string) (payloads : list IssueComment)
    : M (list Call) unit :=
  λ calls,
    (match ExecutionStateContext.Emit st channel eventType payloads with
     | None => Ok tt
     | Some e => Err e
     end,
     calls ++ [Emit_call channel eventType payloads]).

Definition Execute (ρ : range_order) (ctx : ExecutionContext.t IssueComment)
    : M (list Call) unit :=
  config ← wrapM "failed to decode configuration"
    (lift (Decode ρ ctx.(ExecutionContext.Configuration)));
  issueNumber ← wrapM "issue number is not a valid number"
    (lift (Atoi config.(CreateIssueCommentConfiguration.IssueNumber)));
  appMetadata ← wrapM "failed to decode application metadata"
    (lift (DecodeMetadata
             ctx.(ExecutionContext.Integration).(IntegrationContext.GetMetadata)));
  client ← wrapM "failed to initialize GitHub client"
    (lift (NewClient ctx.(ExecutionContext.Integration)
             appMetadata.(Metadata.GitHubApp).(GitHubAppMetadata.ID)
             appMetadata.(Metadata.InstallationID)));
  (* Create the comment *)
  comment ← wrapM "failed to create issue comment"
    (Issues_CreateComment client appMetadata.(Metadata.Owner)
       config.(CreateIssueCommentConfiguration.Repository) issueNumber
       config.(CreateIssueCommentConfiguration.Body));
  ExecutionState_Emit ctx.(ExecutionContext.ExecutionState)
    DefaultOutputChannel.(core.Name) "github.issueComment" [comment].

Definition created_comment_call (config : CreateIssueCommentConfiguration.t)
    (appMetadata : Metadata.t) (issueNumber : Z) : Call :=
  Issues_CreateComment_call appMetadata.(Metadata.Owner)
    config.(CreateIssueCommentConfiguration.Repository) issueNumber
    config.(CreateIssueCommentConfiguration.Body).

Definition default_emit_call (comment : IssueComment) : Call :=
  Emit_call DefaultOutputChannel.(core.Name) "github.issueComment" [comment].

(** The texts [Execute] wraps the errors of the steps before the
    external call with. *)
Definition preparation_messages : list string :=
  [ "failed to decode configuration"; "issue number is not a valid number";
    "failed to decode application metadata"; "failed to initialize GitHub client" ].

(** [require.ErrorContains(t, err, text)] *)
Definition ErrorContains {A} (r : result A) (text : string) : bool :=
  match r with
  | Ok _ => false
  | Err e => strings_Contains (Error e) text
  end.

(** ** Checks by computation *)

Example Atoi_42 : Atoi "42" = Ok 42.
Proof. reflexivity. Qed.
Example Atoi_minus_7 : Atoi "-7" = Ok (-7).
Proof. reflexivity. Qed.
Example Atoi_max : Atoi "9223372036854775807" = Ok (2 ^ 63 - 1).
Proof. reflexivity. Qed.
Example Atoi_min : Atoi "-9223372036854775808" = Ok (- 2 ^ 63).
Proof. reflexivity. Qed.
Example Atoi_too_big :
  Atoi "9223372036854775808"
  = Err (libraryError (NumError "Atoi" "9223372036854775808" ErrRange)).
Proof. reflexivity. Qed.
Example Atoi_letters :
  Atoi "4x" = Err (libraryError (NumError "Atoi" "4x" ErrSyntax)).
Proof. reflexivity. Qed.
Example Atoi_lone_sign :
  Atoi "+" = Err (libraryError (NumError "Atoi" "+" ErrSyntax)).
Proof. reflexivity. Qed.

Example EqualFold_upper : EqualFold "ISSUENUMBER" "issueNumber" = true.
Proof. reflexivity. Qed.
Example EqualFold_exact : EqualFold "issueNumber" "issueNumber" = true.
Proof. reflexivity. Qed.
Example EqualFold_other : EqualFold "issueNumber" "body" = false.
Proof. reflexivity. Qed.
Example EqualFold_prefix : EqualFold "bod" "body" = false.
Proof. reflexivity. Qed.

Example Decode_hello ρ :
  Decode ρ (config_of "hello" "42" "Test comment")
  = Ok {| CreateIssueCommentConfiguration.Repository := "hello";
          CreateIssueCommentConfiguration.IssueNumber := "42";
          CreateIssueCommentConfiguration.Body := "Test comment" |}.
Proof. reflexivity. Qed.
Example Decode_absent ρ :
  Decode ρ (AMap withoutIssueNumber)
  = Ok {| CreateIssueCommentConfiguration.Repository := "hello";
          CreateIssueCommentConfiguration.IssueNumber := "";
          CreateIssueCommentConfiguration.Body := "x" |}.
Proof. reflexivity. Qed.
Example Decode_nil_entry ρ :
  Decode ρ (AMap (<["issueNumber" := ANil]> withoutIssueNumber))
  = Ok {| CreateIssueCommentConfiguration.Repository := "hello";
          CreateIssueCommentConfiguration.IssueNumber := "";
          CreateIssueCommentConfiguration.Body := "x" |}.
Proof. reflexivity. Qed.
Example Decode_folded ρ :
  Decode ρ (AMap shoutedIssueNumber)
  = Ok {| CreateIssueCommentConfiguration.Repository := "hello";
          CreateIssueCommentConfiguration.IssueNumber := "42";
          CreateIssueCommentConfiguration.Body := "x" |}.
Proof. reflexivity. Qed.
Example Decode_number ρ :
  Decode ρ (AMap (<["issueNumber" := AOther "int"]> withoutIssueNumber))
  = Err (libraryError (mapstructure_Error ["issueNumber"])).
Proof. reflexivity. Qed.
Example Decode_nil ρ :
  Decode ρ ANil
  = Ok {| CreateIssueCommentConfiguration.Repository := "";
          CreateIssueCommentConfiguration.IssueNumber := "";
          CreateIssueCommentConfiguration.Body := "" |}.
Proof. reflexivity. Qed.

(** ** The package's tests, replayed on the model *)

Example test_repository_is_required ρ :
  ErrorContains
    (Setup ρ {| SetupContext.Integration :=
                  {| IntegrationContext.GetMetadata := metadata_nil |};
                SetupContext.Configuration :=
                  AMap (<["repository" := AString ""]> ∅) |} None).1
    "repository is required" = true.
Proof. reflexivity. Qed.

Example test_issue_number_is_required ρ :
  ErrorContains
    (Setup ρ {| SetupContext.Integration := helloIntegration;
                SetupContext.Configuration := config_of "hello" "" "Test comment" |}
       None).1
    "issue number is required" = true.
Proof. reflexivity. Qed.

Example test_body_is_required ρ :
  ErrorContains
    (Setup ρ {| SetupContext.Integration := helloIntegration;
                SetupContext.Configuration := config_of "hello" "42" "" |} None).1
    "body is required" = true.
Proof. reflexivity. Qed.

Example test_repository_is_not_accessible ρ :
  ErrorContains
    (Setup ρ {| SetupContext.Integration := helloIntegration;
                SetupContext.Configuration := config_of "world" "42" "Test comment" |}
       None).1
    "repository world is not accessible to app installation" = true.
Proof. reflexivity. Qed.

Example test_metadata_is_set_successfully ρ :
  Setup ρ {| SetupContext.Integration := helloIntegration;
             SetupContext.Configuration := config_of "hello" "42" "Test comment" |}
    None
  = (Ok tt, Some {| NodeMetadata.Repository := Some helloRepo |}).
Proof. reflexivity. Qed.

Example test_has_correct_fields :
  List.length Configuration = 3%nat ∧
  (configuration.Name <$> Configuration) !! 0%nat = Some "repository" ∧
  (configuration.Name <$> Configuration) !! 1%nat = Some "issueNumber" ∧
  (configuration.Name <$> Configuration) !! 2%nat = Some "body".
Proof. repeat split. Qed.

Example test_returns_default_output_channel :
  OutputChannels ANil = [DefaultOutputChannel].
Proof. reflexivity. Qed.

Example test_returns_correct_descriptor :
  Name = "github.createIssueComment" ∧ Label = "Create Issue Comment" ∧
  Description = "Add a comment to a GitHub issue or pull request" ∧
  Icon = "github" ∧ Color = "gray".
Proof. repeat split. Qed.

(** Two keys that compete for a field: the range order decides. *)
Example Decode_rivals :
  Decode first_key (AMap rivalIssueNumbers)
  ≠ Decode (λ _, 1%nat) (AMap rivalIssueNumbers).
Proof. vm_compute. discriminate. Qed.

(** ** Strings and error texts *)

Lemma append_assoc (a b c : string) : (a +:+ b) +:+ c = a +:+ b +:+ c.
Proof.
  induction a as [|x a IH]; [done |].
  change (String x ((a +:+ b) +:+ c) = String x (a +:+ b +:+ c)). by f_equal.
Qed.

Lemma append_nil_r (a : string) : a +:+ "" = a.
Proof.
  induction a as [|x a IH]; [done |].
  change (String x (a +:+ "") = String x a). by f_equal.
Qed.

Lemma Contains_infix (pre sub post : string) : Contains (pre +:+ sub +:+ post) sub.
Proof. by exists pre, post. Qed.

Lemma Contains_prefix (sub post : string) : Contains (sub +:+ post) sub.
Proof. by exists "", post. Qed.

Lemma Contains_wrapError (msg : string) (e : error) :
  Contains (Error (wrapError msg e)) msg.
Proof. simpl. apply Contains_prefix. Qed.

(** ** strconv.Atoi rejects what is not a decimal integer *)

Lemma atoi_digits_not_all (s0 s : string) (n : Z) :
  all_digits s = false → atoi_digits s0 s n = syntaxError "Atoi" s0.
Proof.
  revert n. induction s as [|c s IH]; intros n H; simpl in *; [done |].
  destruct (is_digit c); simpl in H; [by apply IH | done].
Qed.

Lemma parseUint_digits_not_all (s : string) (n : Z) :
  all_digits s = false →
  parseUint_digits s n = None ∨ parseUint_digits s n = Some None.
Proof.
  revert n. induction s as [|c s IH]; intros n H; simpl in *; [done |].
  destruct (is_digit c); simpl in H; [| by left].
  destruct (cutoff10 <=? n); [by right |].
  destruct (maxUint64 <? _); [by right | by apply IH].
Qed.

Lemma Atoi_not_decimal (s : string) :
  is_decimal_integer s = false →
  ∃ reason, Atoi s = Err (libraryError (NumError "Atoi" s reason)).
Proof.
  intros H. destruct s as [|c rest]; [by exists ErrSyntax |].
  unfold Atoi. cbn zeta. unfold is_decimal_integer in H. cbn zeta in H.
  set (s := String c rest) in *.
  destruct (bool_decide (0 < String.length s < 19)%nat).
  - subst s. cbv iota beta.
    destruct (if is_sign c then rest else String c rest) as [|d s1] eqn:E;
      [by exists ErrSyntax |].
    rewrite (atoi_digits_not_all _ _ _ H). by exists ErrSyntax.
  - subst s. unfold ParseInt10. cbn zeta. cbv iota beta.
    destruct (if is_sign c then rest else String c rest) as [|d s1] eqn:E;
      [by exists ErrSyntax |].
    destruct (parseUint_digits_not_all _ 0 H) as [-> | ->];
      [by exists ErrSyntax | by exists ErrRange].
Qed.

(** ** Configuration and OutputChannels *)

(** C8: [Configuration()] returns exactly three fields, in the order
    repository, issueNumber, body, labelled "Repository", "Issue Number"
    and "Body", all three required; being a constant, it is the same on
    every call. *)
Theorem Configuration_schema :
  List.length Configuration = 3%nat ∧
  configuration.Name <$> Configuration = ["repository"; "issueNumber"; "body"] ∧
  configuration.Label <$> Configuration = ["Repository"; "Issue Number"; "Body"] ∧
  configuration.Required <$> Configuration = [true; true; true].
Proof. repeat split. Qed.

(** C9: whatever the configuration value, nil included, [OutputChannels]
    returns exactly one channel, the default one.  It is a function of
    its argument, so two calls on the same configuration return the same
    sequence; indeed any two calls do. *)
Theorem OutputChannels_default (configuration : any) :
  OutputChannels configuration = [DefaultOutputChannel] ∧
  List.length (OutputChannels configuration) = 1%nat ∧
  OutputChannels ANil = [DefaultOutputChannel] ∧
  ∀ other : any, OutputChannels other = OutputChannels configuration.
Proof. repeat split. Qed.

(** ** Execute *)

(** What a run of [Execute] does once the configuration and the
    metadata are in order: the calls it makes and what it returns. *)
Lemma Execute_run ρ ctx calls config issueNumber appMetadata client :
  Decode ρ ctx.(ExecutionContext.Configuration) = Ok config →
  Atoi config.(CreateIssueCommentConfiguration.IssueNumber) = Ok issueNumber →
  DecodeMetadata ctx.(ExecutionContext.Integration).(IntegrationContext.GetMetadata)
    = Ok appMetadata →
  NewClient ctx.(ExecutionContext.Integration)
    appMetadata.(Metadata.GitHubApp).(GitHubAppMetadata.ID)
    appMetadata.(Metadata.InstallationID) = Ok client →
  Execute ρ ctx calls =
    match CreateComment client appMetadata.(Metadata.Owner)
            config.(CreateIssueCommentConfiguration.Repository) issueNumber
            config.(CreateIssueCommentConfiguration.Body) with
    | Ok comment =>
        (match ExecutionStateContext.Emit ctx.(ExecutionContext.ExecutionState)
                 DefaultOutputChannel.(core.Name) "github.issueComment" [comment] with
         | None => Ok tt
         | Some e => Err e
         end,
         (calls ++ [created_comment_call config appMetadata issueNumber])
           ++ [default_emit_call comment])
    | Err e =>
        (Err (wrapError "failed to create issue comment" e),
         calls ++ [created_comment_call config appMetadata issueNumber])
    end.
Proof.
  intros Hconfig Hnumber Hmeta Hclient.
  unfold Execute, mbind, M_bind, wrapM, lift.
  rewrite Hconfig. cbn [wrapf]. rewrite Hnumber. cbn [wrapf].
  rewrite Hmeta. cbn [wrapf]. rewrite Hclient. cbn [wrapf].
  unfold Issues_CreateComment, created_comment_call.
  by destruct (CreateComment _ _ _ _ _).
Qed.

(** When the issue number does not parse, [Execute] stops there: it
    returns strconv's error, wrapped, and has made no call. *)
Lemma Execute_Atoi_error ρ ctx calls config e :
  Decode ρ ctx.(ExecutionContext.Configuration) = Ok config →
  Atoi config.(CreateIssueCommentConfiguration.IssueNumber) = Err e →
  Execute ρ ctx calls
  = (Err (wrapError "issue number is not a valid number" e), calls).
Proof.
  intros Hconfig Hatoi. unfold Execute, mbind, M_bind, wrapM, lift.
  rewrite Hconfig. cbn [wrapf]. by rewrite Hatoi.
Qed.

(** C1: with a configuration that decodes, an issue number that parses,
    integration metadata that decodes and a client that can be built,
    [Execute] makes exactly one external call; when it succeeds there
    is exactly one [Emit], on the default channel, of type
    "github.issueComment", with the one comment as payload; when it
    fails [Execute] returns an error and emits nothing. *)
Theorem Execute_one_call_one_emit ρ ctx calls config issueNumber appMetadata client :
  Decode ρ ctx.(ExecutionContext.Configuration) = Ok config →
  Atoi config.(CreateIssueCommentConfiguration.IssueNumber) = Ok issueNumber →
  DecodeMetadata ctx.(ExecutionContext.Integration).(IntegrationContext.GetMetadata)
    = Ok appMetadata →
  NewClient ctx.(ExecutionContext.Integration)
    appMetadata.(Metadata.GitHubApp).(GitHubAppMetadata.ID)
    appMetadata.(Metadata.InstallationID) = Ok client →
  ∃ made : list Call,
    (Execute ρ ctx calls).2 = calls ++ made ∧
    List.filter is_external made
      = [created_comment_call config appMetadata issueNumber] ∧
    List.length (List.filter is_external made) = 1%nat ∧
    match CreateComment client appMetadata.(Metadata.Owner)
            config.(CreateIssueCommentConfiguration.Repository) issueNumber
            config.(CreateIssueCommentConfiguration.Body) with
    | Ok comment =>
        List.filter is_emit made = [default_emit_call comment] ∧
        List.length (List.filter is_emit made) = 1%nat
    | Err e =>
        returned (Execute ρ ctx calls).1
          = Some (wrapError "failed to create issue comment" e) ∧
        List.filter is_emit made = []
    end.
Proof.
  intros Hconfig Hnumber Hmeta Hclient.
  rewrite (Execute_run _ _ _ _ _ _ _ Hconfig Hnumber Hmeta Hclient).
  destruct (CreateComment _ _ _ _ _) as [comment | e].
  - exists [created_comment_call config appMetadata issueNumber;
            default_emit_call comment].
    cbn [snd]. by rewrite <- app_assoc.
  - by exists [created_comment_call config appMetadata issueNumber].
Qed.

(** ** Setup, step by step *)

Lemma ensureRepoInMetadata_required integration configuration s :
  repositoryValue configuration = "" →
  ensureRepoInMetadata integration configuration s
  = (Err (errors_New "repository is required"), s).
Proof. intros H. unfold ensureRepoInMetadata. by rewrite H. Qed.

Lemma ensureRepoInMetadata_lookup integration configuration appMetadata s :
  repositoryValue configuration ≠ "" →
  DecodeMetadata integration.(IntegrationContext.GetMetadata) = Ok appMetadata →
  ensureRepoInMetadata integration configuration s =
    match List.find
            (λ r, bool_decide (r.(Repository.Name) = repositoryValue configuration))
            appMetadata.(Metadata.Repositories) with
    | None =>
        (Err (errorString ("repository " +:+ repositoryValue configuration
                           +:+ " is not accessible to app installation")), s)
    | Some r => (Ok tt, Some {| NodeMetadata.Repository := Some r |})
    end.
Proof.
  intros Hne Hmeta. unfold ensureRepoInMetadata.
  rewrite bool_decide_eq_false_2 by done.
  unfold mbind, M_bind, wrapM, lift. rewrite Hmeta. cbn [wrapf].
  by destruct (List.find _ _).
Qed.

Lemma Setup_eq ρ ctx s :
  Setup ρ ctx s =
    match ensureRepoInMetadata ctx.(SetupContext.Integration)
            ctx.(SetupContext.Configuration) s with
    | (Ok _, s') => Setup_checks ρ ctx.(SetupContext.Configuration) s'
    | (Err e, s') => (Err e, s')
    end.
Proof.
  unfold Setup, Setup_checks, mbind, M_bind, wrapM, lift.
  destruct (ensureRepoInMetadata _ _ s) as [[[]|e] s']; [| done].
  destruct (Decode _ _) as [config|e]; cbn [wrapf]; [| done].
  by repeat case_bool_decide.
Qed.


(** C10: when the configured issue number is not empty and is not a
    decimal integer, [Execute] returns an error whose text contains
    "issue number is not a valid number", having made no call at all
    (neither the external call nor an [Emit]); yet [Setup] accepts
    that configuration as soon as the repository reference resolves and
    the body is not empty, since it only tests the issue number for
    emptiness. *)
Theorem Execute_rejects_non_numeric_issue_number ρ ctx calls config :
  Decode ρ ctx.(ExecutionContext.Configuration) = Ok config →
  config.(CreateIssueCommentConfiguration.IssueNumber) ≠ "" →
  is_decimal_integer config.(CreateIssueCommentConfiguration.IssueNumber) = false →
  (∃ e, Execute ρ ctx calls = (Err e, calls) ∧
        Contains (Error e) "issue number is not a valid number") ∧
  (∀ integration s s',
      ensureRepoInMetadata integration ctx.(ExecutionContext.Configuration) s
        = (Ok tt, s') →
      config.(CreateIssueCommentConfiguration.Body) ≠ "" →
      Setup ρ {| SetupContext.Integration := integration;
                 SetupContext.Configuration :=
                   ctx.(ExecutionContext.Configuration) |} s
      = (Ok tt, s')).
Proof.
  intros Hconfig Hne Hnum. split.
  - destruct (Atoi_not_decimal _ Hnum) as [reason Hatoi].
    eexists. split.
    + exact (Execute_Atoi_error _ _ _ _ _ Hconfig Hatoi).
    + apply Contains_wrapError.
  - intros integration s s' Hrepo Hbody.
    rewrite Setup_eq. cbn [SetupContext.Integration SetupContext.Configuration].
    rewrite Hrepo. unfold Setup_checks. rewrite Hconfig.
    by rewrite !bool_decide_eq_false_2.
Qed.

(** ** Resolving the repository reference *)

Lemma find_head_filter {A} (f : A → bool) (l : list A) :
  List.find f l = head (List.filter f l).
Proof. induction l as [|x l IH]; simpl; [done |]. by destruct (f x). Qed.

Lemma find_named_None repository (l : list Repository.t) :
  (∀ r, r ∈ l → r.(Repository.Name) ≠ repository) →
  List.find (named repository) l = None.
Proof.
  intros H. destruct (List.find _ l) as [r|] eqn:E; [| done].
  apply List.find_some in E as [Hin Hname].
  apply bool_decide_eq_true_1 in Hname.
  by destruct (H r (proj2 (list_elem_of_In _ _) Hin)).
Qed.

Lemma find_named_Some repository (l : list Repository.t) r :
  r ∈ l → r.(Repository.Name) = repository →
  ∃ resolved, List.find (named repository) l = Some resolved ∧
              resolved ∈ l ∧ resolved.(Repository.Name) = repository.
Proof.
  intros Hin Hname. destruct (List.find _ l) as [r'|] eqn:E.
  - exists r'. apply List.find_some in E as [Hin' Hname'].
    split; [done |]. split; [by apply list_elem_of_In |].
    by apply bool_decide_eq_true_1 in Hname'.
  - pose proof (List.find_none _ _ E r (proj1 (list_elem_of_In _ _) Hin)) as Hf.
    unfold named in Hf. by rewrite bool_decide_eq_true_2 in Hf.
Qed.

(** C3: when the configured repository is not empty and no repository
    of the integration's metadata has that name, [Setup] fails, leaves
    the store as it was, and the error text is "repository <value> is
    not accessible to app installation": it contains the value and the
    phrase "not accessible to app installation". *)
Theorem Setup_repository_not_accessible ρ ctx s appMetadata :
  DecodeMetadata ctx.(SetupContext.Integration).(IntegrationContext.GetMetadata)
    = Ok appMetadata →
  repositoryValue ctx.(SetupContext.Configuration) ≠ "" →
  (∀ r, r ∈ appMetadata.(Metadata.Repositories) →
        r.(Repository.Name) ≠ repositoryValue ctx.(SetupContext.Configuration)) →
  ∃ e, Setup ρ ctx s = (Err e, s) ∧
       Error e = "repository " +:+ repositoryValue ctx.(SetupContext.Configuration)
                 +:+ " is not accessible to app installation" ∧
       Contains (Error e) (repositoryValue ctx.(SetupContext.Configuration)) ∧
       Contains (Error e) "not accessible to app installation".
Proof.
  intros Hmeta Hne Hnone.
  exists (errorString
    ("repository " +:+ repositoryValue ctx.(SetupContext.Configuration)
     +:+ " is not accessible to app installation")).
  split; [| split; [reflexivity | split]].
  - rewrite Setup_eq, (ensureRepoInMetadata_lookup _ _ _ _ Hne Hmeta).
    fold (named (repositoryValue ctx.(SetupContext.Configuration))).
    by rewrite (find_named_None _ _ Hnone).
  - apply Contains_infix.
  - cbn [Error].
    exists ("repository " +:+ repositoryValue ctx.(SetupContext.Configuration) +:+ " is "), "".
    by rewrite append_nil_r, !append_assoc.
Qed.

(** C5: when the configured repository is not empty and names a
    repository of the integration's metadata, and the issue number and
    the body are not empty, [Setup] succeeds; whatever the store held
    before, it then holds exactly the resolved repository record (ID,
    name and URL), which is the first one of that name in the list, and
    the named one itself when the name is unique. *)
Theorem Setup_stores_resolved_repository ρ ctx s appMetadata config r :
  DecodeMetadata ctx.(SetupContext.Integration).(IntegrationContext.GetMetadata)
    = Ok appMetadata →
  repositoryValue ctx.(SetupContext.Configuration) ≠ "" →
  r ∈ appMetadata.(Metadata.Repositories) →
  r.(Repository.Name) = repositoryValue ctx.(SetupContext.Configuration) →
  Decode ρ ctx.(SetupContext.Configuration) = Ok config →
  config.(CreateIssueCommentConfiguration.IssueNumber) ≠ "" →
  config.(CreateIssueCommentConfiguration.Body) ≠ "" →
  ∃ resolved : Repository.t,
    Setup ρ ctx s = (Ok tt, Some {| NodeMetadata.Repository := Some resolved |}) ∧
    head (List.filter (named (repositoryValue ctx.(SetupContext.Configuration)))
            appMetadata.(Metadata.Repositories)) = Some resolved ∧
    resolved ∈ appMetadata.(Metadata.Repositories) ∧
    resolved.(Repository.Name) = repositoryValue ctx.(SetupContext.Configuration) ∧
    ((∀ r', r' ∈ appMetadata.(Metadata.Repositories) →
            r'.(Repository.Name) = r.(Repository.Name) → r' = r) →
     resolved = r).
Proof.
  intros Hmeta Hne Hin Hname Hconfig Hnumber Hbody.
  destruct (find_named_Some _ _ _ Hin Hname) as (resolved & Hfind & Hin' & Hname').
  exists resolved. split; [| split; [| split; [| split]]]; try done.
  - rewrite Setup_eq, (ensureRepoInMetadata_lookup _ _ _ _ Hne Hmeta).
    fold (named (repositoryValue ctx.(SetupContext.Configuration))).
    rewrite Hfind. unfold Setup_checks. rewrite Hconfig.
    by rewrite !bool_decide_eq_false_2.
  - by rewrite <- find_head_filter.
  - intros Huniq. apply Huniq; [done | congruence].
Qed.

(** ** Running Setup again *)



(** ** The order of Setup's checks *)


(** ** An absent key and an empty string *)

Lemma rawMapVal_unmatched ρ (m : gmap string any) name :
  m !! name = None → no_key_folds_to m name → rawMapVal ρ m name = None.
Proof.
  intros Hnone Hfold. unfold rawMapVal. rewrite Hnone. cbn zeta.
  rewrite (map_empty_filter_2 _ m); [by rewrite map_to_list_empty |].
  apply map_Forall_lookup. intros k v Hk. cbn.
  by rewrite (Hfold k (mk_is_Some _ _ Hk)).
Qed.

Lemma rawMapVal_insert_other ρ (m : gmap string any) key name v :
  key ≠ name → EqualFold key name = false →
  rawMapVal ρ (<[key := v]> m) name = rawMapVal ρ m name.
Proof.
  intros Hne Hfold. unfold rawMapVal.
  rewrite lookup_insert_ne by done.
  rewrite map_filter_insert_not; [done |].
  intros y. cbn. by rewrite Hfold.
Qed.

Lemma decodeString_insert_empty ρ (m : gmap string any) key name :
  key ∈ required_keys → name ∈ required_keys →
  m !! key = None → no_key_folds_to m key →
  decodeString (rawMapVal ρ (<[key := AString ""]> m) name)
  = decodeString (rawMapVal ρ m name).
Proof.
  intros Hkey Hname Hnone Hfold.
  destruct (decide (key = name)) as [<- | Hne].
  - rewrite (rawMapVal_unmatched _ _ _ Hnone Hfold).
    unfold rawMapVal. by rewrite lookup_insert_eq.
  - rewrite rawMapVal_insert_other; [done | done |].
    unfold required_keys in *.
    repeat (apply elem_of_cons in Hkey as [-> | Hkey]);
      repeat (apply elem_of_cons in Hname as [-> | Hname]);
      try done; by apply elem_of_nil in Hkey || by apply elem_of_nil in Hname.
Qed.

Lemma Decode_insert_empty ρ (m : gmap string any) key :
  key ∈ required_keys → m !! key = None → no_key_folds_to m key →
  Decode ρ (AMap (<[key := AString ""]> m)) = Decode ρ (AMap m).
Proof.
  intros Hkey Hnone Hfold. unfold Decode.
  assert (∀ name, name ∈ required_keys →
    decodeString (rawMapVal ρ (<[key := AString ""]> m) name)
    = decodeString (rawMapVal ρ m name)) as Hsame.
  { intros name Hname. by apply decodeString_insert_empty. }
  rewrite (Hsame "repository"), (Hsame "issueNumber"), (Hsame "body");
    [done | ..]; unfold required_keys; repeat constructor.
Qed.

Lemma repositoryValue_insert_empty (m : gmap string any) key :
  m !! key = None →
  repositoryValue (AMap (<[key := AString ""]> m)) = repositoryValue (AMap m).
Proof.
  intros Hnone. unfold repositoryValue.
  destruct (decide (key = "repository")) as [-> | Hne].
  - by rewrite lookup_insert_eq, Hnone.
  - by rewrite lookup_insert_ne.
Qed.

(** C7, as the code has it: take a configuration map in which a
    required key is absent and, for issueNumber and body, which has no
    key that folds to it (equals it up to letter case).  Then [Setup]
    does exactly the same, result and store, as on the map with that key
    bound to the empty string.  Both runs fail; the error is that field's
    "is required" error when the checks that come before the field's own
    pass. *)
Theorem Setup_absent_key_as_empty ρ integration (m : gmap string any) key s :
  key ∈ required_keys →
  m !! key = None →
  (key ≠ "repository" → no_key_folds_to m key) →
  Setup ρ {| SetupContext.Integration := integration;
             SetupContext.Configuration := AMap (<[key := AString ""]> m) |} s
  = Setup ρ {| SetupContext.Integration := integration;
               SetupContext.Configuration := AMap m |} s ∧
  (∃ e, (Setup ρ {| SetupContext.Integration := integration;
                    SetupContext.Configuration := AMap m |} s).1 = Err e) ∧
  (∀ s' config,
      (key ≠ "repository" →
       ensureRepoInMetadata integration (AMap m) s = (Ok tt, s') ∧
       Decode ρ (AMap m) = Ok config ∧
       (key = "body" → config.(CreateIssueCommentConfiguration.IssueNumber) ≠ "")) →
      (Setup ρ {| SetupContext.Integration := integration;
                  SetupContext.Configuration := AMap m |} s).1
      = Err (errors_New (required_message key))).
Proof.
  intros Hkey Hnone Hfold'.
  rewrite !Setup_eq. cbn [SetupContext.Integration SetupContext.Configuration].
  destruct (decide (key = "repository")) as [-> | Hne].
  { rewrite !ensureRepoInMetadata_required;
      [| unfold repositoryValue; by rewrite ?lookup_insert_eq, ?Hnone ..].
    split; [done |]. split; [by eexists | done]. }
  pose proof (Hfold' Hne) as Hfold.
  assert (Hfield : ∀ config, Decode ρ (AMap m) = Ok config →
    (key = "issueNumber" → config.(CreateIssueCommentConfiguration.IssueNumber) = "") ∧
    (key = "body" → config.(CreateIssueCommentConfiguration.Body) = "")).
  { intros config Hconfig. unfold Decode in Hconfig.
    split; intros ->.
    - revert Hconfig. rewrite (rawMapVal_unmatched ρ m "issueNumber" Hnone Hfold).
      destruct (field_errors _); [by intros [= <-] | done].
    - revert Hconfig. rewrite (rawMapVal_unmatched ρ m "body" Hnone Hfold).
      destruct (field_errors _); [by intros [= <-] | done]. }
  assert (Hcases : key = "issueNumber" ∨ key = "body").
  { unfold required_keys in Hkey.
    apply elem_of_cons in Hkey as [-> | Hkey]; [done |].
    apply elem_of_cons in Hkey as [-> | Hkey]; [by left |].
    apply elem_of_cons in Hkey as [-> | Hkey]; [by right |].
    by apply elem_of_nil in Hkey. }
  split; [| split].
  - unfold ensureRepoInMetadata.
    rewrite (repositoryValue_insert_empty _ _ Hnone).
    unfold Setup_checks. by rewrite (Decode_insert_empty _ _ _ Hkey Hnone Hfold).
  - destruct (ensureRepoInMetadata _ _ s) as [[[]|e] s0]; [| by exists e].
    unfold Setup_checks.
    destruct (Decode ρ (AMap m)) as [config|e] eqn:Hconfig; [| by eexists].
    destruct (Hfield config eq_refl) as (H2 & H3).
    destruct Hcases as [-> | ->].
    + rewrite (H2 eq_refl). by eexists.
    + rewrite (H3 eq_refl). case_bool_decide; by eexists.
  - intros s' config Hearlier.
    destruct (Hearlier Hne) as (Hens & Hconfig & Hnumber).
    rewrite Hens. unfold Setup_checks. rewrite Hconfig.
    destruct (Hfield config Hconfig) as (H2 & H3).
    destruct Hcases as [-> | ->].
    + by rewrite (H2 eq_refl).
    + rewrite (bool_decide_eq_false_2 _ (Hnumber eq_refl)).
      by rewrite (H3 eq_refl).
Qed.

(** ** strconv.Atoi on decimal integers *)

Lemma is_digit_range c : is_digit c = true → 0 ≤ byte_of c - 48 ≤ 9.
Proof. unfold is_digit. intros [H1 H2]%andb_prop. lia. Qed.

Lemma atoi_digits_all s0 s n :
  all_digits s = true → atoi_digits s0 s n = Ok (digits_value s n).
Proof.
  revert n. induction s as [|c s IH]; intros n H; simpl in *; [done |].
  apply andb_prop in H as [Hc Hs]. rewrite Hc. by apply IH.
Qed.

Lemma digits_value_bounds s n :
  all_digits s = true → 0 ≤ n →
  n * 10 ^ Z.of_nat (String.length s) ≤ digits_value s n
  < (n + 1) * 10 ^ Z.of_nat (String.length s).
Proof.
  revert n. induction s as [|c s IH]; intros n H Hn.
  - simpl. lia.
  - simpl in H. apply andb_prop in H as [Hc Hs].
    apply is_digit_range in Hc.
    cbn [String.length digits_value].
    rewrite Nat2Z.inj_succ, Z.pow_succ_r by lia.
    specialize (IH (n * 10 + (byte_of c - 48)) Hs ltac:(lia)).
    assert (0 < 10 ^ Z.of_nat (String.length s)) by (apply Z.pow_pos_nonneg; lia).
    nia.
Qed.

Lemma parseUint_digits_all s n :
  all_digits s = true → 0 ≤ n ≤ maxUint64 →
  parseUint_digits s n
  = if digits_value s n <=? maxUint64 then Some (Some (digits_value s n)) else Some None.
Proof.
  revert n. induction s as [|c s IH]; intros n H Hn.
  - simpl. destruct (Z.leb_spec n maxUint64); [done | lia].
  - simpl in H. apply andb_prop in H as [Hc Hs].
    cbn [parseUint_digits digits_value]. rewrite Hc.
    apply is_digit_range in Hc.
    pose proof (digits_value_bounds s (n * 10 + (byte_of c - 48)) Hs ltac:(lia)) as Hb.
    assert (1 ≤ 10 ^ Z.of_nat (String.length s)) by
      (pose proof (Z.pow_pos_nonneg 10 (Z.of_nat (String.length s))); lia).
    unfold cutoff10, maxUint64 in *.
    change (2 ^ 64 - 1) with 18446744073709551615 in *.
    change (18446744073709551615 / 10 + 1) with 1844674407370955162 in *.
    destruct (Z.leb_spec 1844674407370955162 n).
    { destruct (Z.leb_spec (digits_value s (n * 10 + (byte_of c - 48))) 18446744073709551615);
        [nia | done]. }
    cbn zeta.
    destruct (Z.ltb_spec 18446744073709551615 (n * 10 + (byte_of c - 48))).
    { destruct (Z.leb_spec (digits_value s (n * 10 + (byte_of c - 48))) 18446744073709551615);
        [nia | done]. }
    apply IH; [done | lia].
Qed.

Lemma Atoi_decimal s :
  is_decimal_integer s = true →
  Atoi s = if in_int_range (decimal_value s) then Ok (decimal_value s)
           else rangeError "Atoi" s.
Proof.
  intros H. destruct s as [|c rest]; [done |].
  unfold is_decimal_integer in H. cbn zeta in H.
  unfold decimal_value, unsigned_part, is_negative. cbn zeta.
  unfold Atoi, ParseInt10. cbn zeta. cbv iota beta.
  destruct (if is_sign c then rest else String c rest) as [|d s1] eqn:Es1; [done |].
  pose proof (digits_value_bounds (String d s1) 0 H (Z.le_refl 0)) as Hb.
  assert (Hlen : (String.length (String d s1) ≤ String.length (String c rest))%nat).
  { destruct (is_sign c); [subst rest | injection Es1 as -> ->];
      cbn [String.length]; lia. }
  set (v := digits_value (String d s1) 0) in *.
  unfold in_int_range.
  change (2 ^ 63) with 9223372036854775808.
  destruct (bool_decide_reflect (0 < String.length (String c rest) < 19)%nat)
    as [Hfast|Hfast].
  - rewrite (atoi_digits_all _ _ _ H). cbn [mbind result_bind]. fold v.
    assert (v < 10 ^ 18).
    { assert (10 ^ Z.of_nat (String.length (String d s1)) ≤ 10 ^ 18)
        by (apply Z.pow_le_mono_r; lia).
      lia. }
    change (10 ^ 18) with 1000000000000000000 in *.
    destruct (bool_decide (c = "-"%char)).
    + rewrite (proj2 (Z.leb_le _ _)), (proj2 (Z.ltb_lt _ _)) by lia. done.
    + rewrite (proj2 (Z.leb_le _ _)), (proj2 (Z.ltb_lt _ _)) by lia. done.
  - rewrite (parseUint_digits_all _ _ H) by (unfold maxUint64; lia). fold v.
    unfold maxUint64. change (2 ^ 64 - 1) with 18446744073709551615.
    destruct (Z.leb_spec v 18446744073709551615);
      destruct (bool_decide (c = "-"%char)); cbn [negb andb].
    + destruct (Z.ltb_spec 9223372036854775808 v).
      * rewrite (proj2 (Z.leb_gt _ _)) by lia. done.
      * rewrite (proj2 (Z.leb_le _ _)), (proj2 (Z.ltb_lt _ _)) by lia. done.
    + destruct (Z.leb_spec 9223372036854775808 v).
      * rewrite (proj2 (Z.leb_le _ _)), (proj2 (Z.ltb_ge _ _)) by lia. done.
      * rewrite (proj2 (Z.leb_le _ _)), (proj2 (Z.ltb_lt _ _)) by lia. done.
    + rewrite (proj2 (Z.leb_gt _ _)) by lia. done.
    + rewrite (proj2 (Z.leb_le _ _)), (proj2 (Z.ltb_ge _ _)) by lia. done.
Qed.

(** X1: [Atoi] returns a number exactly on the strings made of an
    optional sign and at least one digit whose value fits Go's 64-bit
    [int], and the number is that value (leading zeros and a leading
    plus sign are accepted). *)
Theorem Atoi_spec (s : string) (n : Z) :
  Atoi s = Ok n ↔
  is_decimal_integer s = true ∧ in_int_range (decimal_value s) = true ∧
  n = decimal_value s.
Proof.
  split.
  - intros Hok. destruct (is_decimal_integer s) eqn:Hdec.
    + rewrite (Atoi_decimal _ Hdec) in Hok.
      destruct (in_int_range (decimal_value s)); [| done].
      by injection Hok as <-.
    + destruct (Atoi_not_decimal _ Hdec) as [reason Herr]. congruence.
  - intros (Hdec & Hrange & ->). by rewrite (Atoi_decimal _ Hdec), Hrange.
Qed.

(** ** Every run of Execute *)

(** [Execute], stage by stage. *)
Lemma Execute_cases ρ ctx calls :
  Execute ρ ctx calls =
    match Decode ρ ctx.(ExecutionContext.Configuration) with
    | Err e => (Err (wrapError "failed to decode configuration" e), calls)
    | Ok config =>
    match Atoi config.(CreateIssueCommentConfiguration.IssueNumber) with
    | Err e => (Err (wrapError "issue number is not a valid number" e), calls)
    | Ok issueNumber =>
    match DecodeMetadata
            ctx.(ExecutionContext.Integration).(IntegrationContext.GetMetadata) with
    | Err e => (Err (wrapError "failed to decode application metadata" e), calls)
    | Ok appMetadata =>
    match NewClient ctx.(ExecutionContext.Integration)
            appMetadata.(Metadata.GitHubApp).(GitHubAppMetadata.ID)
            appMetadata.(Metadata.InstallationID) with
    | Err e => (Err (wrapError "failed to initialize GitHub client" e), calls)
    | Ok client =>
    match CreateComment client appMetadata.(Metadata.Owner)
            config.(CreateIssueCommentConfiguration.Repository) issueNumber
            config.(CreateIssueCommentConfiguration.Body) with
    | Err e =>
        (Err (wrapError "failed to create issue comment" e),
         calls ++ [created_comment_call config appMetadata issueNumber])
    | Ok comment =>
        (match ExecutionStateContext.Emit ctx.(ExecutionContext.ExecutionState)
                 DefaultOutputChannel.(core.Name) "github.issueComment" [comment] with
         | None => Ok tt
         | Some e => Err e
         end,
         calls ++ [created_comment_call config appMetadata issueNumber;
                   default_emit_call comment])
    end end end end end.
Proof.
  destruct (Decode _ _) as [config|e] eqn:Hconfig;
    [| unfold Execute, mbind, M_bind, wrapM, lift; by rewrite Hconfig].
  destruct (Atoi _) as [issueNumber|e] eqn:Hnumber;
    [| exact (Execute_Atoi_error _ _ _ _ _ Hconfig Hnumber)].
  destruct (DecodeMetadata _) as [appMetadata|e] eqn:Hmeta;
    [| unfold Execute, mbind, M_bind, wrapM, lift;
       by rewrite Hconfig; cbn [wrapf]; rewrite Hnumber; cbn [wrapf]; rewrite Hmeta].
  destruct (NewClient _ _ _) as [client|e] eqn:Hclient;
    [| unfold Execute, mbind, M_bind, wrapM, lift;
       by rewrite Hconfig; cbn [wrapf]; rewrite Hnumber; cbn [wrapf];
          rewrite Hmeta; cbn [wrapf]; rewrite Hclient].
  rewrite (Execute_run _ _ _ _ _ _ _ Hconfig Hnumber Hmeta Hclient).
  destruct (CreateComment _ _ _ _ _); [| done].
  by rewrite <- app_assoc.
Qed.

(** X2: whatever the context, [Execute] only adds calls to the trace,
    and what it adds is nothing, or the one external call, or the
    external call followed by one [Emit] on the default channel of type
    "github.issueComment" with a one-element payload.  It never emits
    before or without the external call, and never calls twice. *)
Theorem Execute_calls_shape ρ ctx calls :
  ∃ made : list Call,
    (Execute ρ ctx calls).2 = calls ++ made ∧
    (made = [] ∨
     (∃ owner repo number body,
        made = [Issues_CreateComment_call owner repo number body]) ∨
     (∃ owner repo number body comment,
        made = [Issues_CreateComment_call owner repo number body;
                default_emit_call comment])).
Proof.
  rewrite Execute_cases.
  destruct (Decode _ _) as [config|?]; [| exists []; by rewrite app_nil_r; auto].
  destruct (Atoi _) as [issueNumber|?]; [| exists []; by rewrite app_nil_r; auto].
  destruct (DecodeMetadata _) as [appMetadata|?];
    [| exists []; by rewrite app_nil_r; auto].
  destruct (NewClient _ _ _) as [client|?]; [| exists []; by rewrite app_nil_r; auto].
  destruct (CreateComment _ _ _ _ _) as [comment|?].
  - eexists. split; [reflexivity |]. right. right.
    unfold created_comment_call. by eexists _, _, _, _, _.
  - eexists. split; [reflexivity |]. right. left.
    unfold created_comment_call. by eexists _, _, _, _.
Qed.

(** X3: [Execute] returns nil only when every step went through: the
    configuration decoded, the issue number parsed, the metadata
    decoded, the client was built, GitHub created the comment and
    [Emit] returned nil; the trace then grew by exactly that external
    call and that [Emit], carrying the comment GitHub returned. *)
Theorem Execute_success_inversion ρ ctx calls calls' :
  Execute ρ ctx calls = (Ok tt, calls') →
  ∃ config issueNumber appMetadata client comment,
    Decode ρ ctx.(ExecutionContext.Configuration) = Ok config ∧
    Atoi config.(CreateIssueCommentConfiguration.IssueNumber) = Ok issueNumber ∧
    DecodeMetadata ctx.(ExecutionContext.Integration).(IntegrationContext.GetMetadata)
      = Ok appMetadata ∧
    NewClient ctx.(ExecutionContext.Integration)
      appMetadata.(Metadata.GitHubApp).(GitHubAppMetadata.ID)
      appMetadata.(Metadata.InstallationID) = Ok client ∧
    CreateComment client appMetadata.(Metadata.Owner)
      config.(CreateIssueCommentConfiguration.Repository) issueNumber
      config.(CreateIssueCommentConfiguration.Body) = Ok comment ∧
    ExecutionStateContext.Emit ctx.(ExecutionContext.ExecutionState)
      DefaultOutputChannel.(core.Name) "github.issueComment" [comment] = None ∧
    calls' = calls ++ [created_comment_call config appMetadata issueNumber;
                       default_emit_call comment].
Proof.
  rewrite Execute_cases.
  destruct (Decode _ _) as [config|?] eqn:Hconfig; [| done].
  destruct (Atoi _) as [issueNumber|?] eqn:Hnumber; [| done].
  destruct (DecodeMetadata _) as [appMetadata|?] eqn:Hmeta; [| done].
  destruct (NewClient _ _ _) as [client|?] eqn:Hclient; [| done].
  destruct (CreateComment _ _ _ _ _) as [comment|?] eqn:Hcomment; [| done].
  destruct (ExecutionStateContext.Emit _ _ _ _) eqn:Hemit; [done |].
  intros [= <-]. by exists config, issueNumber, appMetadata, client, comment.
Qed.

(** X4: when GitHub has created the comment and the host's [Emit]
    fails, [Execute] returns the error of [Emit] as it is, not wrapped;
    the trace shows that the comment was created all the same. *)
Theorem Execute_emit_failure ρ ctx calls config issueNumber appMetadata client
    comment e :
  Decode ρ ctx.(ExecutionContext.Configuration) = Ok config →
  Atoi config.(CreateIssueCommentConfiguration.IssueNumber) = Ok issueNumber →
  DecodeMetadata ctx.(ExecutionContext.Integration).(IntegrationContext.GetMetadata)
    = Ok appMetadata →
  NewClient ctx.(ExecutionContext.Integration)
    appMetadata.(Metadata.GitHubApp).(GitHubAppMetadata.ID)
    appMetadata.(Metadata.InstallationID) = Ok client →
  CreateComment client appMetadata.(Metadata.Owner)
    config.(CreateIssueCommentConfiguration.Repository) issueNumber
    config.(CreateIssueCommentConfiguration.Body) = Ok comment →
  ExecutionStateContext.Emit ctx.(ExecutionContext.ExecutionState)
    DefaultOutputChannel.(core.Name) "github.issueComment" [comment] = Some e →
  Execute ρ ctx calls
  = (Err e, calls ++ [created_comment_call config appMetadata issueNumber;
                      default_emit_call comment]).
Proof.
  intros Hconfig Hnumber Hmeta Hclient Hcomment Hemit.
  by rewrite Execute_cases, Hconfig, Hnumber, Hmeta, Hclient, Hcomment, Hemit.
Qed.

(** X5: an error returned by [Execute] tells how far the run went.  It
    is either a wrapped error with one of the four texts of the
    preparation steps, and then no call was made; or an error wrapped
    with "failed to create issue comment", and then the external call
    was made and nothing was emitted; or the very error [Emit] returned,
    and then both calls were made. *)
Theorem Execute_error_stage ρ ctx calls e :
  (Execute ρ ctx calls).1 = Err e →
  (∃ msg cause, e = wrapError msg cause ∧ msg ∈ preparation_messages ∧
                (Execute ρ ctx calls).2 = calls) ∨
  (∃ cause call, e = wrapError "failed to create issue comment" cause ∧
                 is_external call = true ∧
                 (Execute ρ ctx calls).2 = calls ++ [call]) ∨
  (∃ call comment,
     ExecutionStateContext.Emit ctx.(ExecutionContext.ExecutionState)
       DefaultOutputChannel.(core.Name) "github.issueComment" [comment] = Some e ∧
     is_external call = true ∧
     (Execute ρ ctx calls).2 = calls ++ [call; default_emit_call comment]).
Proof.
  rewrite Execute_cases. unfold preparation_messages.
  destruct (Decode _ _) as [config|?].
  2: { intros [= <-]. left. eexists _, _. split; [done |]. split; [| done].
       repeat constructor. }
  destruct (Atoi _) as [issueNumber|?].
  2: { intros [= <-]. left. eexists _, _. split; [done |]. split; [| done].
       repeat constructor. }
  destruct (DecodeMetadata _) as [appMetadata|?].
  2: { intros [= <-]. left. eexists _, _. split; [done |]. split; [| done].
       repeat constructor. }
  destruct (NewClient _ _ _) as [client|?].
  2: { intros [= <-]. left. eexists _, _. split; [done |]. split; [| done].
       repeat constructor. }
  destruct (CreateComment _ _ _ _ _) as [comment|?].
  - destruct (ExecutionStateContext.Emit _ _ _ _) as [e'|] eqn:Hemit; [| done].
    intros [= <-]. right. right.
    by exists (created_comment_call config appMetadata issueNumber), comment.
  - intros [= <-]. right. left.
    by eexists _, (created_comment_call config appMetadata issueNumber).
Qed.

(** ** The issue number Execute sends *)

(** X6: when the configuration is nil, or decodes with no issue number
    (the key is absent, bound to nil or to the empty string), [Execute]
    does not report a missing field: it fails on parsing the empty
    string, with "issue number is not a valid number" wrapping strconv's
    syntax error, and makes no call. *)
Theorem Execute_missing_issue_number ρ ctx calls :
  ctx.(ExecutionContext.Configuration) = ANil ∨
  (∃ config, Decode ρ ctx.(ExecutionContext.Configuration) = Ok config ∧
             config.(CreateIssueCommentConfiguration.IssueNumber) = "") →
  Execute ρ ctx calls
  = (Err (wrapError "issue number is not a valid number"
            (libraryError (NumError "Atoi" "" ErrSyntax))), calls).
Proof.
  intros [Hnil | (config & Hconfig & Hempty)].
  - apply (Execute_Atoi_error _ _ _
             {| CreateIssueCommentConfiguration.Repository := "";
                CreateIssueCommentConfiguration.IssueNumber := "";
                CreateIssueCommentConfiguration.Body := "" |});
      [by rewrite Hnil | done].
  - apply (Execute_Atoi_error _ _ _ config); [done | by rewrite Hempty].
Qed.

(** X7: a decimal issue number that does not fit Go's 64-bit [int] is
    rejected like a malformed one: [Execute] returns "issue number is
    not a valid number" wrapping strconv's range error, and makes no
    call. *)
Theorem Execute_issue_number_out_of_range ρ ctx calls config :
  Decode ρ ctx.(ExecutionContext.Configuration) = Ok config →
  is_decimal_integer config.(CreateIssueCommentConfiguration.IssueNumber) = true →
  in_int_range (decimal_value config.(CreateIssueCommentConfiguration.IssueNumber))
    = false →
  Execute ρ ctx calls
  = (Err (wrapError "issue number is not a valid number"
            (libraryError
               (NumError "Atoi" config.(CreateIssueCommentConfiguration.IssueNumber)
                  ErrRange))), calls).
Proof.
  intros Hconfig Hdec Hrange.
  apply (Execute_Atoi_error _ _ _ config); [done |].
  by rewrite (Atoi_decimal _ Hdec), Hrange.
Qed.

(** X8: [Execute] does not require the issue number to be positive.
    Whenever the configured issue number is a decimal integer within the
    range of [int], signed or not, and the metadata decodes and the
    client is built, the first call [Execute] makes is the external
    call, for the owner of the integration's metadata, the configured
    repository name and body, and the value of the configured number. *)
Theorem Execute_sends_decimal_value ρ ctx calls config appMetadata client :
  Decode ρ ctx.(ExecutionContext.Configuration) = Ok config →
  is_decimal_integer config.(CreateIssueCommentConfiguration.IssueNumber) = true →
  in_int_range (decimal_value config.(CreateIssueCommentConfiguration.IssueNumber))
    = true →
  DecodeMetadata ctx.(ExecutionContext.Integration).(IntegrationContext.GetMetadata)
    = Ok appMetadata →
  NewClient ctx.(ExecutionContext.Integration)
    appMetadata.(Metadata.GitHubApp).(GitHubAppMetadata.ID)
    appMetadata.(Metadata.InstallationID) = Ok client →
  ∃ rest : list Call,
    (Execute ρ ctx calls).2
    = calls ++
      Issues_CreateComment_call appMetadata.(Metadata.Owner)
        config.(CreateIssueCommentConfiguration.Repository)
        (decimal_value config.(CreateIssueCommentConfiguration.IssueNumber))
        config.(CreateIssueCommentConfiguration.Body) :: rest.
Proof.
  intros Hconfig Hdec Hrange Hmeta Hclient.
  assert (Atoi config.(CreateIssueCommentConfiguration.IssueNumber)
          = Ok (decimal_value config.(CreateIssueCommentConfiguration.IssueNumber)))
    as Hnumber by (by rewrite (Atoi_decimal _ Hdec), Hrange).
  rewrite (Execute_run _ _ _ _ _ _ _ Hconfig Hnumber Hmeta Hclient).
  unfold created_comment_call.
  destruct (CreateComment _ _ _ _ _); cbn [snd].
  - rewrite <- app_assoc. by eexists.
  - by eexists.
Qed.

(** ** Decoding and the range order *)

Lemma rawMapVal_settled ρ ρ' (m : gmap string any) name :
  settled m name → rawMapVal ρ m name = rawMapVal ρ' m name.
Proof.
  intros Hs. unfold rawMapVal.
  destruct (m !! name) as [v|] eqn:Hexact; [done |].
  destruct Hs as [[v Hv] | Huniq]; [congruence |].
  cbn zeta.
  set (P := λ kv : string * any, EqualFold kv.1 name = true).
  pose proof (NoDup_fst_map_to_list (filter P m)) as Hnodup.
  assert (Hin : ∀ k v, (k, v) ∈ map_to_list (filter P m) →
                       is_Some (m !! k) ∧ EqualFold k name = true).
  { intros k v Hkv. apply elem_of_map_to_list in Hkv.
    apply map_lookup_filter_Some in Hkv as [Hk HP]. by split; [eexists |]. }
  destruct (map_to_list (filter P m)) as [|[k1 v1] [|[k2 v2] l]]; [done | |].
  - cbn [List.length]. by rewrite !Nat.mod_1_r.
  - exfalso.
    destruct (Hin k1 v1 (list_elem_of_here _ _)) as [H1 F1].
    destruct (Hin k2 v2 (list_elem_of_further _ _ _ (list_elem_of_here _ _))) as [H2 F2].
    pose proof (Huniq k1 k2 H1 H2 F1 F2) as ->.
    cbn in Hnodup. apply NoDup_cons in Hnodup as [Hnot _].
    apply Hnot. apply list_elem_of_here.
Qed.

Lemma Decode_order_free ρ ρ' configuration :
  order_free configuration → Decode ρ configuration = Decode ρ' configuration.
Proof.
  destruct configuration as [| |m|]; try done. intros Hfree. unfold Decode.
  rewrite (rawMapVal_settled ρ ρ' m "repository"),
          (rawMapVal_settled ρ ρ' m "issueNumber"),
          (rawMapVal_settled ρ ρ' m "body"); [done | ..];
    apply Hfree; unfold required_keys; repeat constructor.
Qed.

Lemma EqualFold_required_distinct key name :
  key ∈ required_keys → name ∈ required_keys → key ≠ name →
  EqualFold key name = false.
Proof.
  unfold required_keys. intros Hkey Hname Hne.
  repeat (apply elem_of_cons in Hkey as [-> | Hkey]);
    repeat (apply elem_of_cons in Hname as [-> | Hname]);
    try done; by apply elem_of_nil in Hkey || by apply elem_of_nil in Hname.
Qed.

Lemma rawMapVal_insert_same_key ρ (m : gmap string any) key name v w :
  key ∈ required_keys → name ∈ required_keys → key ≠ name →
  rawMapVal ρ (<[key := v]> m) name = rawMapVal ρ (<[key := w]> m) name.
Proof.
  intros Hkey Hname Hne. unfold rawMapVal.
  rewrite !lookup_insert_ne by done.
  pose proof (EqualFold_required_distinct _ _ Hkey Hname Hne) as Hfold.
  rewrite !map_filter_insert_False; [done | ..]; cbn; by rewrite Hfold.
Qed.

Lemma Decode_nil_entry_as_empty ρ (m : gmap string any) key :
  key ∈ required_keys →
  Decode ρ (AMap (<[key := ANil]> m)) = Decode ρ (AMap (<[key := AString ""]> m)).
Proof.
  intros Hkey.
  assert (∀ name, name ∈ required_keys →
    decodeString (rawMapVal ρ (<[key := ANil]> m) name)
    = decodeString (rawMapVal ρ (<[key := AString ""]> m) name)) as Hsame.
  { intros name Hname. destruct (decide (key = name)) as [<- | Hne].
    - unfold rawMapVal. by rewrite !lookup_insert_eq.
    - by rewrite (rawMapVal_insert_same_key ρ m key name ANil (AString "")). }
  unfold Decode.
  rewrite (Hsame "repository"), (Hsame "issueNumber"), (Hsame "body");
    [done | ..]; unfold required_keys; repeat constructor.
Qed.

Lemma Decode_not_text ρ (m : gmap string any) key v :
  key ∈ required_keys → m !! key = Some v → is_text v = false →
  ∃ fields, key ∈ fields ∧
            Decode ρ (AMap m) = Err (libraryError (mapstructure_Error fields)).
Proof.
  intros Hkey Hv Htext.
  assert (decodeString (rawMapVal ρ m key) = inr tt) as Hbad.
  { unfold rawMapVal. rewrite Hv. by destruct v. }
  unfold Decode. unfold required_keys in Hkey.
  repeat (apply elem_of_cons in Hkey as [-> | Hkey]);
    [| | | by apply elem_of_nil in Hkey];
    rewrite Hbad;
    repeat match goal with
           | |- context [decodeString (rawMapVal ρ m ?f)] =>
               destruct (decodeString (rawMapVal ρ m f)) as [?|[]]
           end;
    cbn; eexists; (split; [| reflexivity]); repeat constructor.
Qed.

(** [Execute] depends on the configuration and on the range order only
    through what [Decode] makes of them. *)
Lemma Execute_Decode_eq ρ ρ' ctx ctx' calls :
  Decode ρ ctx.(ExecutionContext.Configuration)
  = Decode ρ' ctx'.(ExecutionContext.Configuration) →
  ctx.(ExecutionContext.Integration) = ctx'.(ExecutionContext.Integration) →
  ctx.(ExecutionContext.ExecutionState) = ctx'.(ExecutionContext.ExecutionState) →
  Execute ρ ctx calls = Execute ρ' ctx' calls.
Proof. intros H1 H2 H3. by rewrite !Execute_cases, H1, H2, H3. Qed.

(** X9: on a configuration in which, for each of the three fields, the
    exact key is present or no two keys of the map equal the field name
    up to letter case, the order in which Go ranges over the map plays no
    part: [Decode], [Execute] and [Setup] do the same under any two
    range orders. *)
Theorem runs_order_free ρ ρ' configuration :
  order_free configuration →
  Decode ρ configuration = Decode ρ' configuration ∧
  (∀ ctx calls, ctx.(ExecutionContext.Configuration) = configuration →
                Execute ρ ctx calls = Execute ρ' ctx calls) ∧
  (∀ integration s,
      Setup ρ {| SetupContext.Integration := integration;
                 SetupContext.Configuration := configuration |} s
      = Setup ρ' {| SetupContext.Integration := integration;
                    SetupContext.Configuration := configuration |} s).
Proof.
  intros Hfree. pose proof (Decode_order_free ρ ρ' _ Hfree) as Hdecode.
  split; [done |]. split.
  - intros ctx calls <-. by apply Execute_Decode_eq.
  - intros integration s. rewrite !Setup_eq.
    cbn [SetupContext.Integration SetupContext.Configuration].
    unfold Setup_checks. by rewrite Hdecode.
Qed.

(** X10: an entry bound to nil under one of the three keys is decoded
    exactly as the empty string under that key, whatever else the map
    holds (keys that differ only by case included: the exact key is
    read first); so [Execute] does the same on both maps. *)
Theorem nil_entry_as_empty_string ρ (m : gmap string any) key :
  key ∈ required_keys →
  Decode ρ (AMap (<[key := ANil]> m)) = Decode ρ (AMap (<[key := AString ""]> m)) ∧
  ∀ integration st calls,
    Execute ρ {| ExecutionContext.Integration := integration;
                 ExecutionContext.Configuration := AMap (<[key := ANil]> m);
                 ExecutionContext.ExecutionState := st |} calls
    = Execute ρ {| ExecutionContext.Integration := integration;
                   ExecutionContext.Configuration := AMap (<[key := AString ""]> m);
                   ExecutionContext.ExecutionState := st |} calls.
Proof.
  intros Hkey. pose proof (Decode_nil_entry_as_empty ρ m key Hkey) as Hdecode.
  split; [done |]. intros integration st calls. by apply Execute_Decode_eq.
Qed.

(** X11: weak typing is off.  When one of the three keys is bound to
    something that is neither a string nor nil (a number, a boolean, a
    map), decoding fails and names that field; [Execute] then returns
    "failed to decode configuration" wrapping mapstructure's error and
    makes no call, and [Setup] returns the same wrapped error once
    [ensureRepoInMetadata] has returned nil. *)
Theorem entry_not_text_rejected ρ (m : gmap string any) key v :
  key ∈ required_keys → m !! key = Some v → is_text v = false →
  ∃ fields : list string,
    key ∈ fields ∧
    (∀ ctx calls, ctx.(ExecutionContext.Configuration) = AMap m →
       Execute ρ ctx calls
       = (Err (wrapError "failed to decode configuration"
                 (libraryError (mapstructure_Error fields))), calls)) ∧
    (∀ integration s s',
       ensureRepoInMetadata integration (AMap m) s = (Ok tt, s') →
       Setup ρ {| SetupContext.Integration := integration;
                  SetupContext.Configuration := AMap m |} s
       = (Err (wrapError "failed to decode configuration"
                 (libraryError (mapstructure_Error fields))), s')).
Proof.
  intros Hkey Hv Htext.
  destruct (Decode_not_text ρ m key v Hkey Hv Htext) as (fields & Hin & Hdecode).
  exists fields. split; [done |]. split.
  - intros ctx calls Hcfg. rewrite Execute_cases, Hcfg. by rewrite Hdecode.
  - intros integration s s' Hrepo. rewrite Setup_eq.
    cbn [SetupContext.Integration SetupContext.Configuration].
    rewrite Hrepo. unfold Setup_checks. by rewrite Hdecode.
Qed.

(** ** Setup and the store *)

(** X12: [Setup] returns an error of [ensureRepoInMetadata] as it is,
    not wrapped.  Once [ensureRepoInMetadata] has returned nil, the
    store stays as it left it whatever [Setup] then returns: a failed
    decoding or a missing issue number or body does not undo the write.
    [Setup] then returns nil, or a wrapped decoding error, or one of its
    two "is required" errors. *)
Theorem Setup_keeps_the_store ρ ctx s :
  match ensureRepoInMetadata ctx.(SetupContext.Integration)
          ctx.(SetupContext.Configuration) s with
  | (Err e, s') => Setup ρ ctx s = (Err e, s')
  | (Ok _, s') =>
      (Setup ρ ctx s).2 = s' ∧
      (returned (Setup ρ ctx s).1 = None ∨
       (∃ cause, returned (Setup ρ ctx s).1
                 = Some (wrapError "failed to decode configuration" cause)) ∨
       returned (Setup ρ ctx s).1 = Some (errors_New "issue number is required") ∨
       returned (Setup ρ ctx s).1 = Some (errors_New "body is required"))
  end.
Proof.
  rewrite Setup_eq.
  destruct (ensureRepoInMetadata _ _ s) as [[[]|e] s']; [| done].
  unfold Setup_checks. destruct (Decode _ _) as [config|e].
  - repeat case_bool_decide; cbn; auto.
  - cbn. split; [done |]. right. left. by eexists.
Qed.

(** What [Setup] accepts. *)
Lemma Setup_accepts ρ ctx s s' :
  Setup ρ ctx s = (Ok tt, s') ↔
  ensureRepoInMetadata ctx.(SetupContext.Integration)
    ctx.(SetupContext.Configuration) s = (Ok tt, s') ∧
  ∃ config, Decode ρ ctx.(SetupContext.Configuration) = Ok config ∧
            config.(CreateIssueCommentConfiguration.IssueNumber) ≠ "" ∧
            config.(CreateIssueCommentConfiguration.Body) ≠ "".
Proof.
  rewrite Setup_eq. unfold Setup_checks. split.
  - destruct (ensureRepoInMetadata _ _ s) as [[[]|e] s0]; [| done].
    destruct (Decode _ _) as [config|e]; [| done].
    repeat case_bool_decide; try done.
    intros [= <-]. split; [done |]. by exists config.
  - intros (-> & config & -> & Hnumber & Hbody).
    by rewrite !bool_decide_eq_false_2.
Qed.

(** X13: [Setup] returns nil exactly when [ensureRepoInMetadata] returns
    nil, the configuration decodes, and the decoded issue number and body
    are not empty; the store is then the one [ensureRepoInMetadata] left.
    Nothing else is looked at: not the form of the issue number, not the
    decoded repository field. *)
Theorem Setup_accepts_iff ρ ctx s s' :
  Setup ρ ctx s = (Ok tt, s') ↔
  ensureRepoInMetadata ctx.(SetupContext.Integration)
    ctx.(SetupContext.Configuration) s = (Ok tt, s') ∧
  ∃ config, Decode ρ ctx.(SetupContext.Configuration) = Ok config ∧
            config.(CreateIssueCommentConfiguration.IssueNumber) ≠ "" ∧
            config.(CreateIssueCommentConfiguration.Body) ≠ "".
Proof. apply Setup_accepts. Qed.

(** X14: after [Setup] has accepted a configuration, [Execute] on the
    same configuration, ranging over the map in the same order, gets
    past decoding, with a non-empty issue number and body: if it returns
    an error without having made any call, the error is one of the three
    other preparation errors, never "failed to decode configuration". *)
Theorem Execute_after_Setup ρ sctx s s' ctx calls :
  Setup ρ sctx s = (Ok tt, s') →
  ctx.(ExecutionContext.Configuration) = sctx.(SetupContext.Configuration) →
  (∃ config, Decode ρ ctx.(ExecutionContext.Configuration) = Ok config ∧
             config.(CreateIssueCommentConfiguration.IssueNumber) ≠ "" ∧
             config.(CreateIssueCommentConfiguration.Body) ≠ "") ∧
  (∀ e, (Execute ρ ctx calls).1 = Err e →
        (Execute ρ ctx calls).2 = calls →
        ∃ msg cause, e = wrapError msg cause ∧
          msg ∈ [ "issue number is not a valid number";
                  "failed to decode application metadata";
                  "failed to initialize GitHub client" ]).
Proof.
  intros Hsetup Hcfg. apply Setup_accepts in Hsetup
    as (_ & config & Hconfig & Hnumber & Hbody).
  rewrite <- Hcfg in Hconfig. split; [by exists config |].
  intros e. rewrite Execute_cases, Hconfig.
  destruct (Atoi _) as [issueNumber|?].
  2: { intros [= <-] _. eexists _, _. split; [done |]. repeat constructor. }
  destruct (DecodeMetadata _) as [appMetadata|?].
  2: { intros [= <-] _. eexists _, _. split; [done |]. repeat constructor. }
  destruct (NewClient _ _ _) as [client|?].
  2: { intros [= <-] _. eexists _, _. split; [done |]. repeat constructor. }
  destruct (CreateComment _ _ _ _ _) as [comment|?]; intros _ Hsame;
    cbn [snd] in Hsame; apply (f_equal List.length) in Hsame;
    rewrite length_app in Hsame; cbn in Hsame; lia.
Qed.

(** ** Running Setup again, whatever the range order *)


End Component.

(** ** The statements on the sample installation *)

Lemma no_key_folds_to_Forall (m : gmap string any) (name : string) :
  map_Forall (λ k _, EqualFold k name = false) m → no_key_folds_to m name.
Proof. intros H k [v Hk]. by apply (H k v). Qed.

Lemma Execute_one_call_one_emit_witness :
  (∃ made : list (Call (IssueComment := string)),
     (Execute sampleChannel sampleNewClient sampleCreateComment first_key
        (sampleExecution "42") []).2 = [] ++ made ∧
     List.filter is_external made
       = [Issues_CreateComment_call "testhq" "hello" 42 "Test comment"] ∧
     List.length (List.filter is_external made) = 1%nat ∧
     List.filter is_emit made
       = [Emit_call "default" "github.issueComment" ["Test comment"]] ∧
     List.length (List.filter is_emit made) = 1%nat) ∧
  (∃ made : list (Call (IssueComment := string)),
     (Execute sampleChannel sampleNewClient failingCreateComment first_key
        (sampleExecution "42") []).2 = [] ++ made ∧
     List.filter is_external made
       = [Issues_CreateComment_call "testhq" "hello" 42 "Test comment"] ∧
     List.length (List.filter is_external made) = 1%nat ∧
     returned (Execute sampleChannel sampleNewClient failingCreateComment first_key
                 (sampleExecution "42") []).1
       = Some (wrapError "failed to create issue comment"
                 (errorString "502 Bad Gateway")) ∧
     List.filter is_emit made = []).
Proof.
  split.
  - exact (Execute_one_call_one_emit sampleChannel sampleNewClient sampleCreateComment
             first_key (sampleExecution "42") [] _ 42 _ tt
             eq_refl eq_refl eq_refl eq_refl).
  - exact (Execute_one_call_one_emit sampleChannel sampleNewClient failingCreateComment
             first_key (sampleExecution "42") [] _ 42 _ tt
             eq_refl eq_refl eq_refl eq_refl).
Defined.

Lemma Execute_rejects_non_numeric_issue_number_witness :
  Execute sampleChannel sampleNewClient sampleCreateComment first_key
    (sampleExecution "4x") []
  = (Err (wrapError "issue number is not a valid number"
            (libraryError (NumError "Atoi" "4x" ErrSyntax))), []) ∧
  (∃ e, Execute sampleChannel sampleNewClient sampleCreateComment first_key
          (sampleExecution "4x") [] = (Err e, []) ∧
        Contains (Error noText e) "issue number is not a valid number") ∧
  Setup first_key (sampleSetup "hello" "4x" "Test comment") None
  = (Ok tt, Some {| NodeMetadata.Repository := Some helloRepo |}).
Proof.
  destruct (Execute_rejects_non_numeric_issue_number
              sampleChannel sampleNewClient sampleCreateComment noText first_key
              (sampleExecution "4x") []
              {| CreateIssueCommentConfiguration.Repository := "hello";
                 CreateIssueCommentConfiguration.IssueNumber := "4x";
                 CreateIssueCommentConfiguration.Body := "Test comment" |}
              eq_refl ltac:(done) eq_refl) as [Hexecute Hsetup].
  split; [reflexivity |]. split; [exact Hexecute |].
  apply (Hsetup helloIntegration None); [reflexivity | done].
Defined.

Lemma Setup_repository_not_accessible_witness :
  ∃ e, Setup first_key (sampleSetup "world" "42" "Test comment") None = (Err e, None) ∧
       Error noText e = "repository world is not accessible to app installation" ∧
       Contains (Error noText e) "world" ∧
       Contains (Error noText e) "not accessible to app installation".
Proof.
  apply (Setup_repository_not_accessible noText first_key
           (sampleSetup "world" "42" "Test comment") None
           {| Metadata.InstallationID := ""; Metadata.Owner := "";
              Metadata.GitHubApp := {| GitHubAppMetadata.ID := 0 |};
              Metadata.Repositories := [helloRepo] |}).
  - reflexivity.
  - done.
  - intros r Hr. apply list_elem_of_singleton in Hr as ->. done.
Defined.

Lemma Setup_stores_resolved_repository_witness :
  Setup first_key (sampleSetup "hello" "42" "Test comment")
    (Some {| NodeMetadata.Repository := Some helloFork |})
  = (Ok tt, Some {| NodeMetadata.Repository := Some helloRepo |}).
Proof.
  destruct (Setup_stores_resolved_repository first_key
              (sampleSetup "hello" "42" "Test comment")
              (Some {| NodeMetadata.Repository := Some helloFork |})
              {| Metadata.InstallationID := ""; Metadata.Owner := "";
                 Metadata.GitHubApp := {| GitHubAppMetadata.ID := 0 |};
                 Metadata.Repositories := [helloRepo] |}
              {| CreateIssueCommentConfiguration.Repository := "hello";
                 CreateIssueCommentConfiguration.IssueNumber := "42";
                 CreateIssueCommentConfiguration.Body := "Test comment" |}
              helloRepo eq_refl ltac:(done) ltac:(by apply list_elem_of_singleton)
              eq_refl eq_refl ltac:(done) ltac:(done))
    as (resolved & Hsetup & Hhead & _).
  injection Hhead as <-. exact Hsetup.
Defined.



(** C7 at a concrete input: the key issueNumber is absent, the map has
    the key ISSUENUMBER, and [Setup] succeeds; with issueNumber bound to
    the empty string it fails.  The two runs do not return the same
    result, whatever the range order. *)
Lemma Setup_absent_key_counterexample :
  shoutedIssueNumber !! "issueNumber" = None ∧
  (∀ ρ, Setup ρ {| SetupContext.Integration := helloIntegration;
                   SetupContext.Configuration := AMap shoutedIssueNumber |} None
        = (Ok tt, Some {| NodeMetadata.Repository := Some helloRepo |})) ∧
  (∀ ρ, Setup ρ {| SetupContext.Integration := helloIntegration;
                   SetupContext.Configuration :=
                     AMap (<["issueNumber" := AString ""]> shoutedIssueNumber) |} None
        = (Err (errors_New "issue number is required"),
           Some {| NodeMetadata.Repository := Some helloRepo |})).
Proof. split; [reflexivity |]. split; intros ρ; reflexivity. Qed.

Lemma Setup_absent_key_as_empty_witness :
  Setup first_key
    {| SetupContext.Integration := helloIntegration;
       SetupContext.Configuration :=
         AMap (<["issueNumber" := AString ""]> withoutIssueNumber) |} None
  = Setup first_key
      {| SetupContext.Integration := helloIntegration;
         SetupContext.Configuration := AMap withoutIssueNumber |} None ∧
  (Setup first_key
     {| SetupContext.Integration := helloIntegration;
        SetupContext.Configuration := AMap withoutIssueNumber |} None).1
  = Err (errors_New "issue number is required").
Proof.
  destruct (Setup_absent_key_as_empty first_key helloIntegration
              withoutIssueNumber "issueNumber" None) as (Hsame & _ & Hmessage).
  - unfold required_keys. by repeat constructor.
  - reflexivity.
  - intros _. apply no_key_folds_to_Forall.
    apply (bool_decide_unpack _). vm_compute. exact I.
  - split; [exact Hsame |].
    apply (Hmessage (Some {| NodeMetadata.Repository := Some helloRepo |})
             {| CreateIssueCommentConfiguration.Repository := "hello";
                CreateIssueCommentConfiguration.IssueNumber := "";
                CreateIssueCommentConfiguration.Body := "x" |}).
    intros _. repeat split. intros; done.
Defined.


(** ** The further statements on the sample installation *)

Lemma Execute_success_inversion_witness :
  ∃ config issueNumber appMetadata client comment,
    Decode first_key (config_of "hello" "42" "Test comment") = Ok config ∧
    Atoi config.(CreateIssueCommentConfiguration.IssueNumber) = Ok issueNumber ∧
    DecodeMetadata testhqIntegration.(IntegrationContext.GetMetadata)
      = Ok appMetadata ∧
    sampleNewClient testhqIntegration
      appMetadata.(Metadata.GitHubApp).(GitHubAppMetadata.ID)
      appMetadata.(Metadata.InstallationID) = Ok client ∧
    sampleCreateComment client appMetadata.(Metadata.Owner)
      config.(CreateIssueCommentConfiguration.Repository) issueNumber
      config.(CreateIssueCommentConfiguration.Body) = Ok comment ∧
    (None : option error) = None ∧
    [Issues_CreateComment_call "testhq" "hello" 42 "Test comment";
     Emit_call "default" "github.issueComment" ["Test comment"]]
    = [] ++ [created_comment_call config appMetadata issueNumber;
             default_emit_call sampleChannel comment].
Proof.
  exact (Execute_success_inversion sampleChannel sampleNewClient sampleCreateComment
           first_key (sampleExecution "42") []
           [Issues_CreateComment_call "testhq" "hello" 42 "Test comment";
            Emit_call "default" "github.issueComment" ["Test comment"]]
           eq_refl).
Defined.

Lemma Execute_emit_failure_witness :
  Execute sampleChannel sampleNewClient sampleCreateComment first_key refusedEmit []
  = (Err (errorString "queue is full"),
     [Issues_CreateComment_call "testhq" "hello" 42 "Test comment";
      Emit_call "default" "github.issueComment" ["Test comment"]]).
Proof.
  exact (Execute_emit_failure sampleChannel sampleNewClient sampleCreateComment
           first_key refusedEmit [] _ 42 _ tt "Test comment"
           (errorString "queue is full")
           eq_refl eq_refl eq_refl eq_refl eq_refl eq_refl).
Defined.

Lemma Execute_error_stage_witness :
  (∃ msg cause,
     wrapError "failed to create issue comment" (errorString "502 Bad Gateway")
     = wrapError msg cause ∧ msg ∈ preparation_messages ∧
     (Execute sampleChannel sampleNewClient failingCreateComment first_key
        (sampleExecution "42") []).2 = []) ∨
  (∃ cause call,
     wrapError "failed to create issue comment" (errorString "502 Bad Gateway")
     = wrapError "failed to create issue comment" cause ∧
     is_external call = true ∧
     (Execute sampleChannel sampleNewClient failingCreateComment first_key
        (sampleExecution "42") []).2 = [] ++ [call]) ∨
  (∃ call comment,
     (None : option error)
     = Some (wrapError "failed to create issue comment"
               (errorString "502 Bad Gateway")) ∧
     is_external call = true ∧
     (Execute sampleChannel sampleNewClient failingCreateComment first_key
        (sampleExecution "42") []).2
     = [] ++ [call; default_emit_call sampleChannel comment]).
Proof.
  exact (Execute_error_stage sampleChannel sampleNewClient failingCreateComment
           first_key (sampleExecution "42") []
           (wrapError "failed to create issue comment" (errorString "502 Bad Gateway"))
           eq_refl).
Defined.

Lemma Execute_missing_issue_number_witness :
  Execute sampleChannel sampleNewClient sampleCreateComment first_key
    {| ExecutionContext.Integration := testhqIntegration;
       ExecutionContext.Configuration := ANil;
       ExecutionContext.ExecutionState :=
         {| ExecutionStateContext.Emit := λ _ _ _, None |} |} []
  = (Err (wrapError "issue number is not a valid number"
            (libraryError (NumError "Atoi" "" ErrSyntax))), []) ∧
  Execute sampleChannel sampleNewClient sampleCreateComment first_key
    {| ExecutionContext.Integration := testhqIntegration;
       ExecutionContext.Configuration := AMap withoutIssueNumber;
       ExecutionContext.ExecutionState :=
         {| ExecutionStateContext.Emit := λ _ _ _, None |} |} []
  = (Err (wrapError "issue number is not a valid number"
            (libraryError (NumError "Atoi" "" ErrSyntax))), []).
Proof.
  split.
  - apply (Execute_missing_issue_number sampleChannel sampleNewClient
             sampleCreateComment first_key). by left.
  - apply (Execute_missing_issue_number sampleChannel sampleNewClient
             sampleCreateComment first_key). right.
    by exists {| CreateIssueCommentConfiguration.Repository := "hello";
                 CreateIssueCommentConfiguration.IssueNumber := "";
                 CreateIssueCommentConfiguration.Body := "x" |}.
Defined.

Lemma Execute_issue_number_out_of_range_witness :
  Execute sampleChannel sampleNewClient sampleCreateComment first_key
    (sampleExecution "9223372036854775808") []
  = (Err (wrapError "issue number is not a valid number"
            (libraryError (NumError "Atoi" "9223372036854775808" ErrRange))), []).
Proof.
  exact (Execute_issue_number_out_of_range sampleChannel sampleNewClient
           sampleCreateComment first_key (sampleExecution "9223372036854775808") []
           {| CreateIssueCommentConfiguration.Repository := "hello";
              CreateIssueCommentConfiguration.IssueNumber := "9223372036854775808";
              CreateIssueCommentConfiguration.Body := "Test comment" |}
           eq_refl eq_refl eq_refl).
Defined.

Lemma Execute_sends_decimal_value_witness :
  ∃ rest : list (Call (IssueComment := string)),
    (Execute sampleChannel sampleNewClient sampleCreateComment first_key
       (sampleExecution "-007") []).2
    = [] ++ Issues_CreateComment_call "testhq" "hello" (-7) "Test comment" :: rest.
Proof.
  exact (Execute_sends_decimal_value sampleChannel sampleNewClient
           sampleCreateComment first_key (sampleExecution "-007") []
           {| CreateIssueCommentConfiguration.Repository := "hello";
              CreateIssueCommentConfiguration.IssueNumber := "-007";
              CreateIssueCommentConfiguration.Body := "Test comment" |}
           _ tt eq_refl eq_refl eq_refl eq_refl eq_refl).
Defined.

Lemma runs_order_free_witness :
  Decode first_key (AMap shoutedIssueNumber)
  = Decode (λ _, 1%nat) (AMap shoutedIssueNumber) ∧
  Setup first_key
    {| SetupContext.Integration := helloIntegration;
       SetupContext.Configuration := AMap shoutedIssueNumber |} None
  = Setup (λ _, 1%nat)
      {| SetupContext.Integration := helloIntegration;
         SetupContext.Configuration := AMap shoutedIssueNumber |} None.
Proof.
  destruct (runs_order_free (Client := unit) sampleChannel sampleNewClient
              sampleCreateComment first_key (λ _, 1%nat) (AMap shoutedIssueNumber))
    as (Hdecode & _ & Hsetup).
  - intros name Hname. unfold required_keys in Hname.
    apply elem_of_cons in Hname as [-> | Hname]; [by left; eexists |].
    apply elem_of_cons in Hname as [-> | Hname].
    { right. intros k1 k2 [v1 H1] [v2 H2] F1 F2.
      unfold shoutedIssueNumber in H1, H2.
      repeat (rewrite lookup_insert in H1; case_decide; simplify_eq; try done).
      repeat (rewrite lookup_insert in H2; case_decide; simplify_eq; try done). }
    apply elem_of_cons in Hname as [-> | Hname]; [by left; eexists |].
    by apply elem_of_nil in Hname.
  - split; [exact Hdecode | exact (Hsetup helloIntegration None)].
Defined.

Lemma nil_entry_as_empty_string_witness :
  Decode first_key (AMap (<["issueNumber" := ANil]> shoutedIssueNumber))
  = Decode first_key (AMap (<["issueNumber" := AString ""]> shoutedIssueNumber)).
Proof.
  apply (nil_entry_as_empty_string (Client := unit) sampleChannel sampleNewClient
           sampleCreateComment first_key shoutedIssueNumber "issueNumber").
  unfold required_keys. by repeat constructor.
Defined.

Lemma entry_not_text_rejected_witness :
  ∃ fields : list string,
    "issueNumber" ∈ fields ∧
    (∀ ctx calls,
       ctx.(ExecutionContext.Configuration)
       = AMap (<["issueNumber" := AOther "int"]> withoutIssueNumber) →
       Execute sampleChannel sampleNewClient sampleCreateComment first_key ctx calls
       = (Err (wrapError "failed to decode configuration"
                 (libraryError (mapstructure_Error fields))), calls)) ∧
    (∀ integration s s',
       ensureRepoInMetadata integration
         (AMap (<["issueNumber" := AOther "int"]> withoutIssueNumber)) s = (Ok tt, s') →
       Setup first_key
         {| SetupContext.Integration := integration;
            SetupContext.Configuration :=
              AMap (<["issueNumber" := AOther "int"]> withoutIssueNumber) |} s
       = (Err (wrapError "failed to decode configuration"
                 (libraryError (mapstructure_Error fields))), s')).
Proof.
  apply (entry_not_text_rejected sampleChannel sampleNewClient sampleCreateComment
           first_key (<["issueNumber" := AOther "int"]> withoutIssueNumber)
           "issueNumber" (AOther "int")).
  - unfold required_keys. by repeat constructor.
  - reflexivity.
  - reflexivity.
Defined.

Lemma Setup_accepts_iff_witness :
  (Setup first_key (sampleSetup "hello" "4x" "Test comment") None
   = (Ok tt, Some {| NodeMetadata.Repository := Some helloRepo |}) →
   ensureRepoInMetadata helloIntegration (config_of "hello" "4x" "Test comment") None
   = (Ok tt, Some {| NodeMetadata.Repository := Some helloRepo |}) ∧
   ∃ config, Decode first_key (config_of "hello" "4x" "Test comment") = Ok config ∧
             config.(CreateIssueCommentConfiguration.IssueNumber) ≠ "" ∧
             config.(CreateIssueCommentConfiguration.Body) ≠ "") ∧
  Setup first_key (sampleSetup "hello" "4x" "Test comment") None
  = (Ok tt, Some {| NodeMetadata.Repository := Some helloRepo |}).
Proof.
  destruct (Setup_accepts_iff first_key (sampleSetup "hello" "4x" "Test comment")
              None (Some {| NodeMetadata.Repository := Some helloRepo |}))
    as [Hto Hfrom].
  split; [exact Hto |]. apply Hfrom. split; [reflexivity |].
  by exists {| CreateIssueCommentConfiguration.Repository := "hello";
               CreateIssueCommentConfiguration.IssueNumber := "4x";
               CreateIssueCommentConfiguration.Body := "Test comment" |}.
Defined.

Lemma Execute_after_Setup_witness :
  (∃ config, Decode first_key (config_of "hello" "4x" "Test comment") = Ok config ∧
             config.(CreateIssueCommentConfiguration.IssueNumber) ≠ "" ∧
             config.(CreateIssueCommentConfiguration.Body) ≠ "") ∧
  (∀ e, (Execute sampleChannel sampleNewClient sampleCreateComment first_key
           (sampleExecution "4x") []).1 = Err e →
        (Execute sampleChannel sampleNewClient sampleCreateComment first_key
           (sampleExecution "4x") []).2 = [] →
        ∃ msg cause, e = wrapError msg cause ∧
          msg ∈ [ "issue number is not a valid number";
                  "failed to decode application metadata";
                  "failed to initialize GitHub client" ]).
Proof.
  exact (Execute_after_Setup sampleChannel sampleNewClient sampleCreateComment
           first_key (sampleSetup "hello" "4x" "Test comment") None
           (Some {| NodeMetadata.Repository := Some helloRepo |})
           (sampleExecution "4x") [] eq_refl eq_refl).
Defined.



